(** * Polygons manager: the interactive capture, sync and rendering core

    A shallow embedding of the React component [App] (state, handlers and the
    remote calls of the sync controller), of its view [AppView] (which
    controls are rendered and which are disabled) and of [drawCanvas] (the
    canvas calls of one redraw), followed by the properties of the
    specification that were checked against them.

    Conventions.
    - A JavaScript [number] is an IEEE 754 binary64 value: [float].
    - A JavaScript string is a sequence of UTF-16 code units: [list N].
    - A handler is a function of the render snapshot it closes over and of
      the answers of the outside world (the outcome of [fetch], the answer of
      [window.confirm], the geometry of the canvas).  It yields the ordered
      list of effects it performs and either a value or the exception that
      rejects its promise.  State setters are effects; [run] applies them. *)

From Stdlib Require Import List Bool Arith NArith ZArith Lia Ascii.
From Stdlib Require String DecimalString.
From Stdlib Require Import Floats Uint63.
Import String.StringSyntax.
Delimit Scope string_scope with string.
Import ListNotations.

Set Implicit Arguments.

(* ================================================================= *)
(** ** Numbers and strings *)

Definition number := float.
Bind Scope float_scope with number.

(** [array.length] used as a number. *)
Definition numberOfLength (n : nat) : number :=
  PrimFloat.of_uint63 (Uint63.of_Z (Z.of_nat n)).

(** A string is its sequence of UTF-16 code units. *)
Definition jsstring := list N.

Module JsString.

Definition t := jsstring.

Definition ofAscii (s : String.string) : t :=
  List.map N_of_ascii (String.list_ascii_of_string s).

Definition eqb (a b : t) : bool :=
  if list_eq_dec N.eq_dec a b then true else false.

Definition isEmpty (s : t) : bool :=
  match s with [] => true | _ :: _ => false end.

(** ECMAScript WhiteSpace and LineTerminator code points, the characters
    [String.prototype.trim] strips. *)
Definition isWhiteSpace (c : N) : bool :=
  (N.eqb c 0x0009 || N.eqb c 0x000A || N.eqb c 0x000B || N.eqb c 0x000C
   || N.eqb c 0x000D || N.eqb c 0x0020 || N.eqb c 0x00A0 || N.eqb c 0x1680
   || (N.leb 0x2000 c && N.leb c 0x200A)
   || N.eqb c 0x2028 || N.eqb c 0x2029 || N.eqb c 0x202F || N.eqb c 0x205F
   || N.eqb c 0x3000 || N.eqb c 0xFEFF)%N.

Fixpoint trimStart (s : t) : t :=
  match s with
  | [] => []
  | c :: r => if isWhiteSpace c then trimStart r else s
  end.

Definition trimEnd (s : t) : t := rev (trimStart (rev s)).

Definition trim (s : t) : t := trimEnd (trimStart s).

(** Template-literal rendering of a non-negative integer. *)
Definition ofNat (n : nat) : t :=
  ofAscii (DecimalString.NilZero.string_of_uint (Nat.to_uint n)).

End JsString.

(** String literals of the source. *)
Definition js (s : String.string) : jsstring := JsString.ofAscii s.
Arguments js s%_string.

(* ================================================================= *)
(** ** Data model *)

(** A point is a [number[]]; the handlers build two-element ones. *)
Definition Point := list number.

(** [p[k]] where the result is used as a number: reading past the end gives
    [undefined], which every use below converts to NaN. *)
Definition coord (p : Point) (k : nat) : number := nth k p PrimFloat.nan.

(** [type Polygon = { id: number; name: string; points: number[][] }].  The
    code guards every use of [points] ([polygon.points && ...],
    [polygon.points?.length]), so a server entry may lack it: [None]. *)
Record Polygon := mkPolygon {
  id : Z;
  name : jsstring;
  points : option (list Point)
}.

(** Parsed JSON values, as [response.json()] resolves to. *)
#[warnings="-register-all"]
Inductive Json :=
| JNull
| JBool (b : bool)
| JNumber (n : number)
| JString (s : jsstring)
| JArray (items : list Json)
| JObject (fields : list (jsstring * Json)).

(** [res?.error]: [None] is [undefined].  Only an object can own the
    property; of duplicate keys [JSON.parse] keeps the last. *)
Definition optionalProperty (res : Json) (key : jsstring) : option Json :=
  match res with
  | JObject fields =>
      match find (fun kv => JsString.eqb (fst kv) key) (rev fields) with
      | Some kv => Some (snd kv)
      | None => None
      end
  | _ => None
  end.

(** [v === 'literal']. *)
Definition strictEqualsString (v : option Json) (literal : jsstring) : bool :=
  match v with
  | Some (JString s) => JsString.eqb s literal
  | _ => false
  end.

(** A thrown value, with [String(error)] as the notifications print it. *)
Record Exn := mkExn { exnName : jsstring; exnMessage : jsstring }.

Definition exnToString (e : Exn) : jsstring :=
  if JsString.isEmpty (exnName e) then exnMessage e
  else if JsString.isEmpty (exnMessage e) then exnName e
  else exnName e ++ js ": " ++ exnMessage e.

(* ================================================================= *)
(** ** Component state *)

(** The seven [useState] cells of [App]. *)
Record State := mkState {
  polygons : list Polygon;
  currentPolygon : list Point;
  isDrawing : bool;
  newPolygonName : jsstring;
  showSaveButton : bool;
  showNameDialog : bool;
  loading : bool
}.

Definition initialState : State :=
  {| polygons := []; currentPolygon := []; isDrawing := false;
     newPolygonName := []; showSaveButton := false;
     showNameDialog := false; loading := false |}.

(** Requests to the polygon store, relative to [POLYGONS_API_BASE]:
    [GET /polygons], [POST /polygons] with body [{name, points}] and
    [DELETE /polygons/{id}]. *)
Inductive HttpRequest :=
| GetPolygons
| PostPolygon (name : jsstring) (points : list Point)
| DeletePolygon (id : Z).

(** Everything a handler does besides computing. *)
Inductive Action :=
| SetPolygons (ps : list Polygon)
| SetCurrentPolygon (pts : list Point)
| AppendCurrentPolygon (pt : Point)   (* [setCurrentPolygon(prev => [...prev, pt])] *)
| SetIsDrawing (b : bool)
| SetNewPolygonName (s : jsstring)
| SetShowSaveButton (b : bool)
| SetShowNameDialog (b : bool)
| SetLoading (b : bool)
| Delay (ms : N)
| Fetch (req : HttpRequest)
| WindowConfirm (message : jsstring)
| ToastSuccess (message : jsstring)
| ToastError (message : jsstring)
| ConsoleError (message : jsstring) (error : Exn).

Definition apply (a : Action) (st : State) : State :=
  match a with
  | SetPolygons ps =>
      mkState ps (currentPolygon st) (isDrawing st) (newPolygonName st)
              (showSaveButton st) (showNameDialog st) (loading st)
  | SetCurrentPolygon pts =>
      mkState (polygons st) pts (isDrawing st) (newPolygonName st)
              (showSaveButton st) (showNameDialog st) (loading st)
  | AppendCurrentPolygon pt =>
      mkState (polygons st) (currentPolygon st ++ [pt]) (isDrawing st)
              (newPolygonName st) (showSaveButton st) (showNameDialog st)
              (loading st)
  | SetIsDrawing b =>
      mkState (polygons st) (currentPolygon st) b (newPolygonName st)
              (showSaveButton st) (showNameDialog st) (loading st)
  | SetNewPolygonName s =>
      mkState (polygons st) (currentPolygon st) (isDrawing st) s
              (showSaveButton st) (showNameDialog st) (loading st)
  | SetShowSaveButton b =>
      mkState (polygons st) (currentPolygon st) (isDrawing st)
              (newPolygonName st) b (showNameDialog st) (loading st)
  | SetShowNameDialog b =>
      mkState (polygons st) (currentPolygon st) (isDrawing st)
              (newPolygonName st) (showSaveButton st) b (loading st)
  | SetLoading b =>
      mkState (polygons st) (currentPolygon st) (isDrawing st)
              (newPolygonName st) (showSaveButton st) (showNameDialog st) b
  | Delay _ | Fetch _ | WindowConfirm _
  | ToastSuccess _ | ToastError _ | ConsoleError _ _ => st
  end.

(** The state after the effects have been committed in order. *)
Definition run (acts : list Action) (st : State) : State :=
  fold_left (fun s a => apply a s) acts st.

(** The remote calls among the effects, in order. *)
Fixpoint requests (acts : list Action) : list HttpRequest :=
  match acts with
  | [] => []
  | Fetch r :: rest => r :: requests rest
  | _ :: rest => requests rest
  end.

(* ================================================================= *)
(** ** Asynchronous computations *)

(** An [async] function run to completion: its effects, and the value its
    promise resolves to or the exception it rejects with. *)
Definition Async (A : Type) : Type := (list Action * (Exn + A))%type.

Definition actions {A} (m : Async A) : list Action := fst m.
Definition outcome {A} (m : Async A) : Exn + A := snd m.

Definition ret {A} (a : A) : Async A := ([], inr a).
Definition throw {A} (e : Exn) : Async A := ([], inl e).
Definition emit (a : Action) : Async unit := ([a], inr tt).

(** [await m] followed by the rest of the function. *)
Definition bind {A B} (m : Async A) (k : A -> Async B) : Async B :=
  match snd m with
  | inl e => (fst m, inl e)
  | inr a => (fst m ++ fst (k a), snd (k a))
  end.

(** [try { m } catch (error) { handler error }]. *)
Definition tryCatch {A} (m : Async A) (handler : Exn -> Async A) : Async A :=
  match snd m with
  | inl e => (fst m ++ fst (handler e), snd (handler e))
  | inr _ => m
  end.

Declare Scope async_scope.
Delimit Scope async_scope with async.
Notation "x <- m ;; k" := (bind m (fun x => k))
  (at level 61, m at next level, right associativity) : async_scope.
Notation "m ;; k" := (bind m (fun _ => k))
  (at level 61, right associativity) : async_scope.
Open Scope async_scope.

(** What the network answers.  [fetch] rejects on a transport failure and
    otherwise resolves to a response, whose [json()] itself rejects when the
    body is not JSON. *)
Record Response (B : Type) := mkResponse {
  ok : bool;
  body : Exn + B
}.

Definition FetchOutcome (B : Type) : Type := (Exn + Response B)%type.

Definition fetch {B} (req : HttpRequest) (answer : FetchOutcome B)
  : Async (Response B) :=
  (emit (Fetch req) ;;
   match answer with
   | inl e => throw e
   | inr response => ret response
   end).

Definition responseJson {B} (response : Response B) : Async B :=
  match body response with
  | inl e => throw e
  | inr v => ret v
  end.

(** Modelled from the spec: [delay] of [App.utils], which is not among the
    sources; section 9 calls it an artificial delay before the call.  It
    waits and resolves. *)
Definition delay (ms : N) : Async unit := emit (Delay ms).

(* ================================================================= *)
(** ** Sync controller *)

(** [fetchPolygons]: its promise resolves to the response, or to [null]
    ([None]) when anything inside the [try] threw. *)
Definition fetchPolygons (get : FetchOutcome (list Polygon))
  : Async (option (Response (list Polygon))) :=
  tryCatch
    (emit (SetLoading true) ;;
     delay 5000 ;;
     response <- fetch GetPolygons get ;;
     (if ok response
      then data <- responseJson response ;;
           emit (SetPolygons data)
      else emit (ToastError (js "Failed to fetch polygons"))) ;;
     emit (SetLoading false) ;;
     ret (Some response))
    (fun error =>
     emit (ConsoleError (js "Error fetching polygons:") error) ;;
     emit (ToastError (js "Failed to fetch polygons: " ++ exnToString error)) ;;
     emit (SetLoading false) ;;
     ret None).

(** [createPolygon].  The [try] block ends in [return response.json()]: it
    hands back the promise of the parsed body without awaiting it, so the
    block completes normally with that promise and a rejection of it is not
    seen by the [catch].  The block therefore yields a computation, which the
    caller's [await] runs. *)
Definition createPolygon (name : jsstring) (points : list Point)
    (post : FetchOutcome Json) (get : FetchOutcome (list Polygon))
  : Async Json :=
  returned <-
    tryCatch
      (emit (SetLoading true) ;;
       delay 5000 ;;
       response <- fetch (PostPolygon name points) post ;;
       (if ok response
        then emit (ToastSuccess (js "Polygon created successfully!")) ;;
             _ <- fetchPolygons get ;;
             ret tt
        else emit (ToastError (js "Error creating polygon"))) ;;
       emit (SetLoading false) ;;
       ret (responseJson response))
      (fun error =>
       emit (ConsoleError (js "Error creating polygon:") error) ;;
       emit (ToastError (js "Error creating polygon: " ++ exnToString error)) ;;
       emit (SetLoading false) ;;
       ret (ret JNull)) ;;
  returned.

(** [deletePolygon]; the body of the answer is never read. *)
Definition deletePolygon (id : Z)
    (del : FetchOutcome unit) (get : FetchOutcome (list Polygon))
  : Async unit :=
  tryCatch
    (emit (SetLoading true) ;;
     delay 5000 ;;
     response <- fetch (DeletePolygon id) del ;;
     (if ok response
      then emit (ToastSuccess (js "Polygon deleted successfully!")) ;;
           _ <- fetchPolygons get ;;
           ret tt
      else emit (ToastError (js "Error deleting polygon"))) ;;
     emit (SetLoading false))
    (fun error =>
     emit (ConsoleError (js "Error deleting polygon:") error) ;;
     emit (ToastError (js "Error deleting polygon: " ++ exnToString error)) ;;
     emit (SetLoading false)).

(* ================================================================= *)
(** ** Interaction handlers *)

Record DOMRect := mkRect { left : number; top : number }.
Record MouseEvent := mkMouse { clientX : number; clientY : number }.

(** The [<canvas>] element behind [canvasRef.current]. *)
Record Canvas := mkCanvas {
  width : number;
  height : number;
  context2d : bool;          (* [getContext('2d')] is not null *)
  boundingClientRect : DOMRect
}.

(** Each handler takes the snapshot [st] of the render that created it. *)

Definition handleCanvasClick (st : State) (canvasRef : option Canvas)
    (e : MouseEvent) : Async unit :=
  if negb (isDrawing st) then ret tt
  else
    match canvasRef with
    | None => ret tt
    | Some canvas =>
        let rect := boundingClientRect canvas in
        let x := (clientX e - left rect)%float in
        let y := (clientY e - top rect)%float in
        (if 1 <? length (currentPolygon st)
         then emit (SetShowSaveButton true)
         else ret tt) ;;
        emit (AppendCurrentPolygon [x; y])
    end.

Definition startDrawing : Async unit :=
  emit (SetIsDrawing true) ;;
  emit (SetCurrentPolygon []).

Definition cancelDrawing : Async unit :=
  emit (SetIsDrawing false) ;;
  emit (SetCurrentPolygon []).

Definition duplicateNameError : jsstring :=
  js "Polygon with this name already exists".

(** The condition of [handleCreatePolygon]: a non-empty string is truthy. *)
Definition createGuard (st : State) : bool :=
  negb (JsString.isEmpty (JsString.trim (newPolygonName st)))
  && (2 <? length (currentPolygon st)).

Definition handleCreatePolygon (st : State)
    (post : FetchOutcome Json) (get : FetchOutcome (list Polygon))
  : Async unit :=
  if createGuard st then
    res <- createPolygon (JsString.trim (newPolygonName st))
                         (currentPolygon st) post get ;;
    if strictEqualsString (optionalProperty res (js "error")) duplicateNameError
    then ret tt
    else
      emit (SetIsDrawing false) ;;
      emit (SetCurrentPolygon []) ;;
      emit (SetNewPolygonName []) ;;
      emit (SetShowNameDialog false)
  else ret tt.

Definition handleDeletePolygon (id : Z) (confirmed : bool)
    (del : FetchOutcome unit) (get : FetchOutcome (list Polygon))
  : Async unit :=
  emit (WindowConfirm (js "Are you sure you want to delete this polygon?")) ;;
  if confirmed then deletePolygon id del get else ret tt.

(* ================================================================= *)
(** ** View *)

(** The controls of [AppView] that carry a handler. *)
Inductive Control :=
| DrawNewPolygonButton
| CancelDrawingButton
| DeleteButton (id : Z)
| CanvasElement
| SavePolygonButton
| NameDialog               (* its [onClose]: backdrop click or Escape *)
| NameField
| DialogCancelButton
| DialogSaveButton.

Definition Control_eqb (a b : Control) : bool :=
  match a, b with
  | DrawNewPolygonButton, DrawNewPolygonButton
  | CancelDrawingButton, CancelDrawingButton
  | CanvasElement, CanvasElement
  | SavePolygonButton, SavePolygonButton
  | NameDialog, NameDialog
  | NameField, NameField
  | DialogCancelButton, DialogCancelButton
  | DialogSaveButton, DialogSaveButton => true
  | DeleteButton i, DeleteButton j => Z.eqb i j
  | _, _ => false
  end.

Record Widget := mkWidget { control : Control; disabled : bool }.

(** What [AppView] renders from its props, which [App] fills with its state:
    a conditional in the JSX is a control present or absent, a [disabled]
    attribute is the flag of the widget. *)
Definition AppView (props : State) : list Widget :=
  [if negb (isDrawing props)
   then mkWidget DrawNewPolygonButton false
   else mkWidget CancelDrawingButton false]
  ++ List.map (fun polygon => mkWidget (DeleteButton (id polygon)) false)
              (polygons props)
  ++ [mkWidget CanvasElement false]
  ++ (if showSaveButton props
      then [mkWidget SavePolygonButton
              (loading props || negb (isDrawing props)
               || (length (currentPolygon props) <? 3))]
      else [])
  ++ (if showNameDialog props
      then [mkWidget NameDialog false;
            mkWidget NameField false;
            mkWidget DialogCancelButton (loading props);
            mkWidget DialogSaveButton (loading props)]
      else []).

(** The save affordance is on screen. *)
Definition saveVisible (st : State) : bool :=
  existsb (fun w => Control_eqb (control w) SavePolygonButton) (AppView st).

(** A control is on screen and not disabled. *)
Definition actionable (st : State) (c : Control) : bool :=
  existsb (fun w => Control_eqb (control w) c && negb (disabled w)) (AppView st).

(* ================================================================= *)
(** ** Events *)

(** What can happen to the component, with the answers of the outside world
    that the handler will receive. *)
Inductive Event :=
| Mount (get : FetchOutcome (list Polygon))       (* the effect run on mount *)
| ClickDrawNewPolygon
| ClickCancelDrawing
| ClickDelete (id : Z) (confirmed : bool)
              (del : FetchOutcome unit) (get : FetchOutcome (list Polygon))
| ClickCanvas (canvasRef : option Canvas) (e : MouseEvent)
| ClickSavePolygon
| CloseNameDialog
| ChangeName (value : jsstring)
| ClickDialogCancel
| ClickDialogSave (post : FetchOutcome Json) (get : FetchOutcome (list Polygon)).

Definition target (ev : Event) : option Control :=
  match ev with
  | Mount _ => None
  | ClickDrawNewPolygon => Some DrawNewPolygonButton
  | ClickCancelDrawing => Some CancelDrawingButton
  | ClickDelete id _ _ _ => Some (DeleteButton id)
  | ClickCanvas _ _ => Some CanvasElement
  | ClickSavePolygon => Some SavePolygonButton
  | CloseNameDialog => Some NameDialog
  | ChangeName _ => Some NameField
  | ClickDialogCancel => Some DialogCancelButton
  | ClickDialogSave _ _ => Some DialogSaveButton
  end.

(** The handler the view wires to each control. *)
Definition handler (st : State) (ev : Event) : Async unit :=
  match ev with
  | Mount get => _ <- fetchPolygons get ;; ret tt
  | ClickDrawNewPolygon => startDrawing
  | ClickCancelDrawing => cancelDrawing
  | ClickDelete id confirmed del get => handleDeletePolygon id confirmed del get
  | ClickCanvas canvasRef e => handleCanvasClick st canvasRef e
  | ClickSavePolygon => emit (SetShowNameDialog true)
  | CloseNameDialog => emit (SetShowNameDialog false)
  | ChangeName value => emit (SetNewPolygonName value)
  | ClickDialogCancel => emit (SetShowNameDialog false)
  | ClickDialogSave post get => handleCreatePolygon st post get
  end.

(** An event on a control that is absent or disabled runs nothing. *)
Definition dispatch (st : State) (ev : Event) : Async unit :=
  match target ev with
  | None => handler st ev
  | Some c => if actionable st c then handler st ev else ret tt
  end.

(** One event handled to completion: the handler runs on the snapshot [st]
    and its effects are committed in order.  An asynchronous handler is not
    interleaved with other events here; what must survive interleaving is
    stated on the effects themselves. *)
Definition step (st : State) (ev : Event) : State :=
  run (actions (dispatch st ev)) st.

Definition steps (st : State) (evs : list Event) : State :=
  fold_left step evs st.

(* ================================================================= *)
(** ** Renderer *)

(** Calls on the 2D context, in the order [drawCanvas] makes them. *)
Inductive CanvasOp :=
| ClearRect (x y w h : number)
| DrawImage (x y w h : number)
| BeginPath
| MoveTo (x y : number)
| LineTo (x y : number)
| ClosePath
| SetFillStyle (style : jsstring)
| Fill
| SetStrokeStyle (style : jsstring)
| SetLineWidth (w : number)
| Stroke
| SetFont (font : jsstring)
| FillText (text : jsstring) (x y : number)
| Arc (x y radius startAngle endAngle : number).

(** [array.forEach((element, index) => ...)], collecting the calls. *)
Fixpoint forEachFrom {A B} (f : A -> nat -> list B) (index : nat) (l : list A)
  : list B :=
  match l with
  | [] => []
  | x :: rest => f x index ++ forEachFrom f (S index) rest
  end.

Definition forEach {A B} (f : A -> nat -> list B) (l : list A) : list B :=
  forEachFrom f 0 l.

(** [for (let i = 1; i < pts.length; i++) ctx.lineTo(pts[i][0], pts[i][1])]. *)
Definition lineTos (pts : list Point) : list CanvasOp :=
  List.map (fun p => LineTo (coord p 0) (coord p 1)) (tl pts).

(** [pts.reduce((sum, p) => sum + p[k], 0)]. *)
Definition sumCoord (k : nat) (pts : list Point) : number :=
  fold_left (fun sum p => (sum + coord p k)%float) pts 0%float.

(** The hue written into both styles: [index * 60]. *)
Definition polygonHue (index : nat) : nat := index * 60.

Definition fillStyleOf (hue : nat) : jsstring :=
  js "hsla(" ++ JsString.ofNat hue ++ js ", 70%, 50%, 0.3)".

Definition strokeStyleOf (hue : nat) : jsstring :=
  js "hsl(" ++ JsString.ofNat hue ++ js ", 70%, 40%)".

(** The callback of [polygons.forEach]. *)
Definition drawSavedPolygon (polygon : Polygon) (index : nat) : list CanvasOp :=
  match points polygon with
  | None => []
  | Some pts =>
      if 2 <? length pts then
        [BeginPath;
         MoveTo (coord (nth 0 pts []) 0) (coord (nth 0 pts []) 1)]
        ++ lineTos pts
        ++ [ClosePath;
            SetFillStyle (fillStyleOf (polygonHue index));
            Fill;
            SetStrokeStyle (strokeStyleOf (polygonHue index));
            SetLineWidth 2%float;
            Stroke]
        ++ (if 0 <? length pts then
              let centerX := (sumCoord 0 pts / numberOfLength (length pts))%float in
              let centerY := (sumCoord 1 pts / numberOfLength (length pts))%float in
              [SetFillStyle (js "#000");
               SetFont (js "14px Arial");
               FillText (name polygon) (centerX - 20)%float centerY]
            else [])
      else []
  end.

Definition PI : number := 0x1.921fb54442d18p+1%float.

(** The polygon being drawn. *)
Definition drawCurrentPolygon (currentPolygon : list Point) : list CanvasOp :=
  if 0 <? length currentPolygon then
    [BeginPath;
     MoveTo (coord (nth 0 currentPolygon []) 0) (coord (nth 0 currentPolygon []) 1)]
    ++ lineTos currentPolygon
    ++ (if 2 <? length currentPolygon
        then [ClosePath; SetFillStyle (js "rgba(255, 0, 0, 0.3)"); Fill]
        else [])
    ++ [SetStrokeStyle (js "red"); SetLineWidth 2%float; Stroke]
    ++ flat_map (fun point =>
                   [BeginPath;
                    Arc (coord point 0) (coord point 1) 4%float 0%float (2 * PI)%float;
                    SetFillStyle (js "red");
                    Fill])
                currentPolygon
  else [].

(** The body of [img.onload]. *)
Definition onload (canvas : Canvas) (polygons : list Polygon)
    (currentPolygon : list Point) : list CanvasOp :=
  [ClearRect 0%float 0%float (width canvas) (height canvas);
   DrawImage 0%float 0%float (width canvas) (height canvas)]
  ++ forEach drawSavedPolygon polygons
  ++ drawCurrentPolygon currentPolygon.

(** [drawCanvas]: nothing without a canvas or a context, and the frame is
    painted when (and if) the background image has loaded. *)
Definition drawCanvas (canvasRef : option Canvas) (imageLoads : bool)
    (st : State) : list CanvasOp :=
  match canvasRef with
  | None => []
  | Some canvas =>
      if negb (context2d canvas) then []
      else if imageLoads then onload canvas (polygons st) (currentPolygon st)
      else []
  end.

(* ================================================================= *)
(** ** The earlier single-file variant *)

(** [polygon-interface/src/App.tsx] has the same state without [loading],
    the same [handleCanvasClick], [startDrawing], [cancelDrawing] and
    [drawCanvas], and simpler remote calls and save and delete handlers. *)
Module Legacy.

Definition fetchPolygons (get : FetchOutcome (list Polygon)) : Async unit :=
  tryCatch
    (response <- fetch GetPolygons get ;;
     if ok response
     then data <- responseJson response ;;
          emit (SetPolygons data)
     else emit (ToastError (js "Failed to fetch polygons")))
    (fun error =>
     emit (ConsoleError (js "Error fetching polygons:") error) ;;
     emit (ToastError (js "Failed to fetch polygons: " ++ exnToString error))).

Definition createPolygon (name : jsstring) (points : list Point)
    (post : FetchOutcome Json) (get : FetchOutcome (list Polygon))
  : Async unit :=
  tryCatch
    (response <- fetch (PostPolygon name points) post ;;
     if ok response
     then fetchPolygons get ;;
          emit (ToastSuccess (js "Polygon created successfully!"))
     else emit (ToastError (js "Error creating polygon")))
    (fun error =>
     emit (ConsoleError (js "Error creating polygon:") error) ;;
     emit (ToastError (js "Error creating polygon: " ++ exnToString error))).

Definition deletePolygon (id : Z)
    (del : FetchOutcome unit) (get : FetchOutcome (list Polygon))
  : Async unit :=
  tryCatch
    (response <- fetch (DeletePolygon id) del ;;
     if ok response
     then fetchPolygons get ;;
          emit (ToastSuccess (js "Polygon deleted successfully!"))
     else emit (ToastError (js "Error deleting polygon")))
    (fun error =>
     emit (ConsoleError (js "Error deleting polygon:") error) ;;
     emit (ToastError (js "Error deleting polygon: " ++ exnToString error))).

Definition handleSavePolygon (st : State)
    (post : FetchOutcome Json) (get : FetchOutcome (list Polygon))
  : Async unit :=
  if createGuard st then
    createPolygon (JsString.trim (newPolygonName st))
                  (currentPolygon st) post get ;;
    emit (SetCurrentPolygon []) ;;
    emit (SetIsDrawing false) ;;
    emit (SetNewPolygonName []) ;;
    emit (SetShowNameDialog false)
  else ret tt.

Definition handleDeletePolygon (id : Z)
    (del : FetchOutcome unit) (get : FetchOutcome (list Polygon))
  : Async unit :=
  deletePolygon id del get.

(** The JSX this variant returns: the same controls, none of them looking
    at a [loading] flag. *)
Definition AppView (st : State) : list Widget :=
  [if negb (isDrawing st)
   then mkWidget DrawNewPolygonButton false
   else mkWidget CancelDrawingButton false]
  ++ List.map (fun polygon => mkWidget (DeleteButton (id polygon)) false)
              (polygons st)
  ++ [mkWidget CanvasElement false]
  ++ (if showSaveButton st
      then [mkWidget SavePolygonButton
              (negb (isDrawing st) || (length (currentPolygon st) <? 3))]
      else [])
  ++ (if showNameDialog st
      then [mkWidget NameDialog false;
            mkWidget NameField false;
            mkWidget DialogCancelButton false;
            mkWidget DialogSaveButton false]
      else []).

End Legacy.

(* ================================================================= *)
(** ** Vocabulary of the statements *)

(** An effect leaves the observation [f] of the state alone. *)
Definition Keeps {X} (f : State -> X) (a : Action) : Prop :=
  forall s, f (apply a s) = f s.

(** An effect never lowers the save-affordance flag. *)
Definition KeepsSaveFlagUp (a : Action) : Prop :=
  forall s, showSaveButton s = true -> showSaveButton (apply a s) = true.

(** The effects of the sync controller: the two cells it owns, the remote
    calls, the waits and the notifications. *)
Definition syncEffect (a : Action) : bool :=
  match a with
  | SetPolygons _ | SetLoading _ | Delay _ | Fetch _
  | ToastSuccess _ | ToastError _ | ConsoleError _ _ => true
  | _ => false
  end.

(** The user-initiated actions that the specification lists as gated by
    [loading]: start drawing, a canvas click, opening and confirming the
    save, and delete. *)
Definition isGatedAction (ev : Event) : bool :=
  match ev with
  | ClickDrawNewPolygon | ClickCanvas _ _ | ClickSavePolygon
  | ClickDialogSave _ _ | ClickDelete _ _ _ _ => true
  | _ => false
  end.

(** CSS colours as the specification words them: hue in degrees,
    saturation and lightness in percent, alpha as written. *)
Definition hsla (hue saturation lightness : nat) (alpha : String.string)
  : jsstring :=
  js "hsla(" ++ JsString.ofNat hue ++ js ", "
  ++ JsString.ofNat saturation ++ js "%, "
  ++ JsString.ofNat lightness ++ js "%, " ++ js alpha ++ js ")".

Arguments hsla hue saturation lightness alpha%_string.

Definition hsl (hue saturation lightness : nat) : jsstring :=
  js "hsl(" ++ JsString.ofNat hue ++ js ", "
  ++ JsString.ofNat saturation ++ js "%, "
  ++ JsString.ofNat lightness ++ js "%)".

(** The point a click adds: pointer position minus canvas origin. *)
Definition clickPoint (canvas : Canvas) (e : MouseEvent) : Point :=
  [(clientX e - left (boundingClientRect canvas))%float;
   (clientY e - top (boundingClientRect canvas))%float].

(** The name label of a saved polygon. *)
Definition nameLabel (polygon : Polygon) (pts : list Point) : list CanvasOp :=
  [SetFillStyle (js "#000");
   SetFont (js "14px Arial");
   FillText (name polygon)
            (sumCoord 0 pts / numberOfLength (length pts) - 20)%float
            (sumCoord 1 pts / numberOfLength (length pts))%float].

(** *** Concrete inputs used by the examples *)

Module Sample.

Definition canvas : Canvas :=
  mkCanvas 600%float 400%float true (mkRect 8%float 8%float).

Definition click (x y : number) : MouseEvent := mkMouse x y.

Definition triangle : list Point :=
  [[0; 0]; [10; 0]; [10; 10]]%float.

Definition segment : list Point := [[0; 0]; [10; 0]]%float.

Definition polygonA : Polygon := mkPolygon 1 (js "A") (Some triangle).
Definition polygonB : Polygon := mkPolygon 2 (js "B") (Some segment).
Definition polygonC : Polygon := mkPolygon 3 (js "C") (Some triangle).
Definition polygonD : Polygon := mkPolygon 4 (js "D") None.

(** Right after mount: the first [list()] is in flight. *)
Definition mounting : State :=
  mkState [] [] false [] false false true.

(** A draft of three points with the naming dialog open on "Zone1". *)
Definition naming : State :=
  mkState [polygonA] triangle true (js "Zone1") true true false.

(** The same while a call is in flight. *)
Definition namingWhileLoading : State :=
  mkState [polygonA] triangle true (js "Zone1") true true true.

Definition networkError : Exn :=
  mkExn (js "TypeError") (js "Failed to fetch").

Definition syntaxError : Exn :=
  mkExn (js "SyntaxError") (js "Unexpected token < in JSON at position 0").

(** A rejection other than a duplicate name whose body is an HTML error
    page, so that [response.json()] rejects. *)
Definition rejectedWithHtmlBody : FetchOutcome Json :=
  inr (mkResponse false (inl syntaxError)).

Definition rejectedAsDuplicate : FetchOutcome Json :=
  inr (mkResponse false
         (inr (JObject [(js "error", JString duplicateNameError)]))).

Definition listOk (ps : list Polygon) : FetchOutcome (list Polygon) :=
  inr (mkResponse true (inr ps)).

Definition deleteOk : FetchOutcome unit :=
  inr (mkResponse true (inr tt)).

End Sample.

(* ================================================================= *)
(** ** Vocabulary of the properties of the whole component *)

(** The notifications among the effects, in order. *)
Fixpoint toasts (acts : list Action) : list Action :=
  match acts with
  | [] => []
  | ToastSuccess m :: rest => ToastSuccess m :: toasts rest
  | ToastError m :: rest => ToastError m :: toasts rest
  | _ :: rest => toasts rest
  end.

(** Every request among the effects leaves while the [loading] cell, as the
    effects before it have set it, is raised; [raised] is its value at the
    start. *)
Fixpoint requestsUnderLoading (raised : bool) (acts : list Action) : bool :=
  match acts with
  | [] => true
  | SetLoading b :: rest => requestsUnderLoading b rest
  | Fetch _ :: rest => raised && requestsUnderLoading raised rest
  | _ :: rest => requestsUnderLoading raised rest
  end.


(** A string with a first and a last code unit, neither of them blank. *)
Definition noSurroundingWhiteSpace (s : jsstring) : Prop :=
  (exists c rest, s = c :: rest /\ JsString.isWhiteSpace c = false)
  /\ (exists c front, s = front ++ [c] /\ JsString.isWhiteSpace c = false).

(** *** What a frame paints

    The 2D context keeps a current path and the drawing attributes between
    calls, and across redraws.  [paint] follows the calls of a frame from a
    context [c] and lists what reaches the pixels, each with the path and
    the attributes in force at that call.  Only the attributes [drawCanvas]
    writes are tracked; every value it writes is a valid one, so each
    assignment takes effect. *)
Record Context2D := mkContext {
  ctxPath : list CanvasOp;
  ctxFillStyle : jsstring;
  ctxStrokeStyle : jsstring;
  ctxLineWidth : number;
  ctxFont : jsstring
}.

Inductive Painted :=
| PaintedClear (x y w h : number)
| PaintedImage (x y w h : number)
| PaintedFill (path : list CanvasOp) (fillStyle : jsstring)
| PaintedStroke (path : list CanvasOp) (strokeStyle : jsstring) (lineWidth : number)
| PaintedText (text : jsstring) (x y : number) (fillStyle font : jsstring).

Definition contextAfter1 (c : Context2D) (op : CanvasOp) : Context2D :=
  match op with
  | BeginPath =>
      mkContext [] (ctxFillStyle c) (ctxStrokeStyle c) (ctxLineWidth c) (ctxFont c)
  | MoveTo _ _ | LineTo _ _ | ClosePath | Arc _ _ _ _ _ =>
      mkContext (ctxPath c ++ [op]) (ctxFillStyle c) (ctxStrokeStyle c)
                (ctxLineWidth c) (ctxFont c)
  | SetFillStyle s =>
      mkContext (ctxPath c) s (ctxStrokeStyle c) (ctxLineWidth c) (ctxFont c)
  | SetStrokeStyle s =>
      mkContext (ctxPath c) (ctxFillStyle c) s (ctxLineWidth c) (ctxFont c)
  | SetLineWidth w =>
      mkContext (ctxPath c) (ctxFillStyle c) (ctxStrokeStyle c) w (ctxFont c)
  | SetFont f =>
      mkContext (ctxPath c) (ctxFillStyle c) (ctxStrokeStyle c) (ctxLineWidth c) f
  | ClearRect _ _ _ _ | DrawImage _ _ _ _ | Fill | Stroke | FillText _ _ _ => c
  end.

Definition painted1 (c : Context2D) (op : CanvasOp) : list Painted :=
  match op with
  | ClearRect x y w h => [PaintedClear x y w h]
  | DrawImage x y w h => [PaintedImage x y w h]
  | Fill => [PaintedFill (ctxPath c) (ctxFillStyle c)]
  | Stroke => [PaintedStroke (ctxPath c) (ctxStrokeStyle c) (ctxLineWidth c)]
  | FillText text x y => [PaintedText text x y (ctxFillStyle c) (ctxFont c)]
  | _ => []
  end.

Definition contextAfter (c : Context2D) (ops : list CanvasOp) : Context2D :=
  fold_left contextAfter1 ops c.

Fixpoint paint (c : Context2D) (ops : list CanvasOp) : list Painted :=
  match ops with
  | [] => []
  | op :: rest => painted1 c op ++ paint (contextAfter1 c op) rest
  end.

(** The outline through the points, in order, open and closed. *)
Definition openPath (pts : list Point) : list CanvasOp :=
  MoveTo (coord (nth 0 pts []) 0) (coord (nth 0 pts []) 1) :: lineTos pts.

Definition closedPath (pts : list Point) : list CanvasOp :=
  openPath pts ++ [ClosePath].

(** What a saved polygon is expected to put on the canvas. *)
Definition paintedSavedPolygon (polygon : Polygon) (index : nat) : list Painted :=
  match points polygon with
  | None => []
  | Some pts =>
      if 3 <=? length pts then
        [PaintedFill (closedPath pts) (hsla (index * 60) 70 50 "0.3");
         PaintedStroke (closedPath pts) (hsl (index * 60) 70 40) 2;
         PaintedText (name polygon)
           (sumCoord 0 pts / numberOfLength (length pts) - 20)%float
           (sumCoord 1 pts / numberOfLength (length pts))%float
           (js "#000") (js "14px Arial")]
      else []
  end.

(** What the draft is expected to put on the canvas. *)
Definition paintedDraft (draft : list Point) : list Painted :=
  match draft with
  | [] => []
  | _ :: _ =>
      (if 3 <=? length draft
       then [PaintedFill (closedPath draft) (js "rgba(255, 0, 0, 0.3)");
             PaintedStroke (closedPath draft) (js "red") 2]
       else [PaintedStroke (openPath draft) (js "red") 2])
      ++ List.map (fun point =>
                     PaintedFill
                       [Arc (coord point 0) (coord point 1) 4 0 (2 * PI)%float]
                       (js "red"))
                  draft
  end.

(* ================================================================= *)
(** ** The renderer on what the server really sends *)

(** [setPolygons(data)] stores the parsed body unchecked, so an entry of a
    [points] array may be [null] where the type says [number[]].  Reading
    [points[i][0]] of such an entry throws, and the exception leaves
    [img.onload] at once: the calls made so far stay on the canvas and
    nothing after them is made. *)
Module Untyped.

Inductive Entry :=
| Null
| Coordinates (p : Point).

Record Polygon := mkPolygon {
  id : Z;
  name : jsstring;
  points : option (list Entry)
}.

(** The calls made, and the exception that ended them if one did. *)
Definition Drawing : Type := (list CanvasOp * option Exn)%type.

(** The [TypeError] of reading a property of [null]; its message is the
    engine's. *)
Definition typeError : Exn :=
  mkExn (js "TypeError") (js "Cannot read properties of null (reading '0')").

(** [for (let i = 1; ...) ctx.lineTo(pts[i][0], pts[i][1])], on the entries
    from index 1 on. *)
Fixpoint lineTos (entries : list Entry) : Drawing :=
  match entries with
  | [] => ([], None)
  | Null :: _ => ([], Some typeError)
  | Coordinates p :: rest =>
      (LineTo (coord p 0) (coord p 1) :: fst (lineTos rest), snd (lineTos rest))
  end.

(** The entries as points; it is used once every entry has been read. *)
Definition coordinatesOf (entries : list Entry) : list Point :=
  flat_map (fun e => match e with Coordinates p => [p] | Null => [] end) entries.

(** The callback of [polygons.forEach]. *)
Definition drawSavedPolygon (polygon : Polygon) (index : nat) : Drawing :=
  match points polygon with
  | None => ([], None)
  | Some entries =>
      if 2 <? length entries then
        match entries with
        | [] => ([], None)
        | Null :: _ => ([BeginPath], Some typeError)
        | Coordinates p0 :: rest =>
            match snd (lineTos rest) with
            | Some e =>
                (BeginPath :: MoveTo (coord p0 0) (coord p0 1)
                 :: fst (lineTos rest), Some e)
            | None =>
                ([BeginPath; MoveTo (coord p0 0) (coord p0 1)]
                 ++ fst (lineTos rest)
                 ++ [ClosePath;
                     SetFillStyle (fillStyleOf (polygonHue index));
                     Fill;
                     SetStrokeStyle (strokeStyleOf (polygonHue index));
                     SetLineWidth 2;
                     Stroke]
                 ++ (if 0 <? length entries then
                       let pts := coordinatesOf entries in
                       let centerX :=
                         (sumCoord 0 pts / numberOfLength (length entries))%float in
                       let centerY :=
                         (sumCoord 1 pts / numberOfLength (length entries))%float in
                       [SetFillStyle (js "#000");
                        SetFont (js "14px Arial");
                        FillText (name polygon) (centerX - 20)%float centerY]
                     else []),
                 None)
            end
        end
      else ([], None)
  end.

(** [polygons.forEach(...)]: an exception in the callback ends the loop. *)
Fixpoint forEachFrom (index : nat) (ps : list Polygon) : Drawing :=
  match ps with
  | [] => ([], None)
  | polygon :: rest =>
      match snd (drawSavedPolygon polygon index) with
      | Some e => (fst (drawSavedPolygon polygon index), Some e)
      | None =>
          (fst (drawSavedPolygon polygon index) ++ fst (forEachFrom (S index) rest),
           snd (forEachFrom (S index) rest))
      end
  end.

(** The body of [img.onload]. *)
Definition onload (canvas : Canvas) (polygons : list Polygon)
    (currentPolygon : list Point) : Drawing :=
  match snd (forEachFrom 0 polygons) with
  | Some e =>
      ([ClearRect 0 0 (width canvas) (height canvas);
        DrawImage 0 0 (width canvas) (height canvas)]
       ++ fst (forEachFrom 0 polygons), Some e)
  | None =>
      ([ClearRect 0 0 (width canvas) (height canvas);
        DrawImage 0 0 (width canvas) (height canvas)]
       ++ fst (forEachFrom 0 polygons)
       ++ drawCurrentPolygon currentPolygon, None)
  end.

End Untyped.

(** A polygon of the declared type, as one of those the server may send. *)
Definition asSent (polygon : Polygon) : Untyped.Polygon :=
  Untyped.mkPolygon (id polygon) (name polygon)
    (option_map (List.map Untyped.Coordinates) (points polygon)).

(** A collection whose second polygon has [null] for its first point. *)
Definition collectionWithNullPoint : list Untyped.Polygon :=
  [asSent Sample.polygonA;
   Untyped.mkPolygon 2 (js "B")
     (Some [Untyped.Null;
            Untyped.Coordinates [10; 0]%float;
            Untyped.Coordinates [10; 10]%float]);
   asSent Sample.polygonC].

(** The renderable polygons of a collection: index, name and points. *)
Definition renderableAt (ps : list Polygon)
  : list (nat * jsstring * list Point) :=
  flat_map (fun ip =>
              match points (snd ip) with
              | Some pts =>
                  if 3 <=? length pts then [(fst ip, name (snd ip), pts)] else []
              | None => []
              end)
           (combine (seq 0 (length ps)) ps).

(** The fill, the stroke and the label of the polygon at [index]. *)
Definition paintedAt (entry : nat * jsstring * list Point) : list Painted :=
  let '(index, label, pts) := entry in
  [PaintedFill (closedPath pts) (hsla (index * 60) 70 50 "0.3");
   PaintedStroke (closedPath pts) (hsl (index * 60) 70 40) 2;
   PaintedText label
     (sumCoord 0 pts / numberOfLength (length pts) - 20)%float
     (sumCoord 1 pts / numberOfLength (length pts))%float
     (js "#000") (js "14px Arial")].

(* ================================================================= *)
(** * Properties *)

(** ** Committing effects *)

Lemma run_app (a b : list Action) (st : State) :
  run (a ++ b) st = run b (run a st).
Proof. unfold run. apply fold_left_app. Qed.

Lemma run_cons (a : Action) (rest : list Action) (st : State) :
  run (a :: rest) st = run rest (apply a st).
Proof. reflexivity. Qed.

Lemma run_keeps {X} (f : State -> X) (acts : list Action) (st : State) :
  Forall (Keeps f) acts -> f (run acts st) = f st.
Proof.
  intros H. revert st.
  induction H as [|a rest Ha _ IH]; intros st; [reflexivity|].
  rewrite run_cons, IH. apply Ha.
Qed.

Lemma run_save_flag_up (acts : list Action) (st : State) :
  Forall KeepsSaveFlagUp acts ->
  showSaveButton st = true -> showSaveButton (run acts st) = true.
Proof.
  intros H. revert st.
  induction H as [|a rest Ha _ IH]; intros st Hst; [exact Hst|].
  rewrite run_cons. apply IH, Ha, Hst.
Qed.

Lemma forallb_Forall {A} (p : A -> bool) (l : list A) :
  forallb p l = true -> Forall (fun x => p x = true) l.
Proof.
  intros H. apply Forall_forall. apply (proj1 (forallb_forall p l) H).
Qed.

(** ** What the sync controller touches *)

Lemma syncEffect_keeps_interaction (a : Action) :
  syncEffect a = true ->
  Keeps currentPolygon a /\ Keeps isDrawing a /\ Keeps newPolygonName a
  /\ Keeps showNameDialog a /\ Keeps showSaveButton a.
Proof.
  destruct a; simpl; intros H; try discriminate H;
    repeat split; intros s; reflexivity.
Qed.

Ltac by_outcome x :=
  let e := fresh "error" in
  let isOk := fresh "isOk" in
  let b := fresh "parsed" in
  destruct x as [e | [isOk [e | b]]]; [ | destruct isOk | destruct isOk ].

Lemma fetchPolygons_footprint (get : FetchOutcome (list Polygon)) :
  forallb syncEffect (actions (fetchPolygons get)) = true.
Proof. by_outcome get; reflexivity. Qed.

Lemma fetchPolygons_resolves (get : FetchOutcome (list Polygon)) :
  exists r, outcome (fetchPolygons get) = inr r.
Proof. by_outcome get; eexists; reflexivity. Qed.

Lemma createPolygon_footprint name pts post get :
  forallb syncEffect (actions (createPolygon name pts post get)) = true.
Proof. by_outcome post; by_outcome get; reflexivity. Qed.

(** [createPolygon] rejects exactly when reading the body of the answer
    does; a transport failure resolves to [null]. *)
Lemma createPolygon_outcome name pts post get :
  outcome (createPolygon name pts post get)
  = match post with
    | inl _ => inr JNull
    | inr response => body response
    end.
Proof. by_outcome post; by_outcome get; reflexivity. Qed.

Lemma deletePolygon_footprint id del get :
  forallb syncEffect (actions (deletePolygon id del get)) = true.
Proof. by_outcome del; by_outcome get; reflexivity. Qed.

Lemma deletePolygon_resolves id del get :
  outcome (deletePolygon id del get) = inr tt.
Proof. by_outcome del; by_outcome get; reflexivity. Qed.

(** ** Which controls can be used *)

Lemma delete_buttons_only (q : Widget -> bool) (ps : list Polygon) :
  (forall i, q (mkWidget (DeleteButton i) false) = false) ->
  existsb q
    (List.map (fun polygon => mkWidget (DeleteButton (id polygon)) false) ps)
  = false.
Proof.
  intros Hq. induction ps as [|p ps IH]; simpl; [reflexivity|].
  rewrite IH, Hq. reflexivity.
Qed.

Ltac view_of c :=
  unfold c, AppView; rewrite !existsb_app;
  rewrite delete_buttons_only by (intros ?; reflexivity); simpl.

Lemma saveVisible_flag (st : State) : saveVisible st = showSaveButton st.
Proof.
  view_of saveVisible.
  destruct (isDrawing st), (showSaveButton st), (showNameDialog st);
    reflexivity.
Qed.

Lemma actionable_save (st : State) :
  actionable st SavePolygonButton
  = showSaveButton st
    && negb (loading st || negb (isDrawing st)
             || (length (currentPolygon st) <? 3)).
Proof.
  view_of actionable.
  destruct (isDrawing st), (showSaveButton st), (showNameDialog st),
    (loading st), (length (currentPolygon st) <? 3); reflexivity.
Qed.

Lemma actionable_dialogSave (st : State) :
  actionable st DialogSaveButton = showNameDialog st && negb (loading st).
Proof.
  view_of actionable.
  destruct (isDrawing st), (showSaveButton st), (showNameDialog st),
    (loading st); reflexivity.
Qed.

Lemma actionable_dialogCancel (st : State) :
  actionable st DialogCancelButton = showNameDialog st && negb (loading st).
Proof.
  view_of actionable.
  destruct (isDrawing st), (showSaveButton st), (showNameDialog st),
    (loading st); reflexivity.
Qed.

Lemma actionable_drawNew (st : State) :
  actionable st DrawNewPolygonButton = negb (isDrawing st).
Proof.
  view_of actionable.
  destruct (isDrawing st), (showSaveButton st), (showNameDialog st);
    reflexivity.
Qed.

Lemma actionable_cancelDrawing (st : State) :
  actionable st CancelDrawingButton = isDrawing st.
Proof.
  view_of actionable.
  destruct (isDrawing st), (showSaveButton st), (showNameDialog st);
    reflexivity.
Qed.

Lemma actionable_canvas (st : State) : actionable st CanvasElement = true.
Proof.
  unfold actionable, AppView. rewrite !existsb_app. simpl.
  rewrite !orb_true_r. reflexivity.
Qed.

Lemma actionable_delete (st : State) (i : Z) :
  actionable st (DeleteButton i)
  = existsb (fun polygon => Z.eqb (id polygon) i) (polygons st).
Proof.
  unfold actionable, AppView. rewrite !existsb_app.
  assert (Hmap : forall ps,
    existsb (fun w => Control_eqb (control w) (DeleteButton i) && negb (disabled w))
      (List.map (fun polygon => mkWidget (DeleteButton (id polygon)) false) ps)
    = existsb (fun polygon => Z.eqb (id polygon) i) ps).
  { induction ps as [|p ps IH]; simpl; [reflexivity|].
    rewrite IH, andb_true_r. reflexivity. }
  rewrite Hmap.
  destruct (isDrawing st), (showSaveButton st), (showNameDialog st); simpl;
    rewrite ?orb_false_r; reflexivity.
Qed.

(** ** Remote calls of the handlers *)

Lemma requests_app (a b : list Action) :
  requests (a ++ b) = requests a ++ requests b.
Proof.
  induction a as [|x a IH]; simpl; [reflexivity|].
  destruct x; simpl; rewrite IH; reflexivity.
Qed.

Lemma requests_In (r : HttpRequest) (acts : list Action) :
  In r (requests acts) <-> In (Fetch r) acts.
Proof.
  induction acts as [|x acts IH]; simpl; [tauto|].
  destruct x; simpl; rewrite IH;
    try (split; [auto | intros [H|H]; [discriminate H | exact H]]).
  split; (intros [H|H]; [left; congruence | right; exact H]).
Qed.

Lemma createPolygon_requests name pts post get :
  requests (actions (createPolygon name pts post get))
  = PostPolygon name pts
    :: match post with
       | inr response => if ok response then [GetPolygons] else []
       | inl _ => []
       end.
Proof. by_outcome post; by_outcome get; reflexivity. Qed.

Lemma createGuard_spec (st : State) :
  createGuard st = true
  <-> JsString.trim (newPolygonName st) <> [] /\ 3 <= length (currentPolygon st).
Proof.
  unfold createGuard. rewrite andb_true_iff, Nat.ltb_lt.
  destruct (JsString.trim (newPolygonName st)); simpl.
  - split; [intros [H _]; discriminate H | intros [H _]; destruct H; reflexivity].
  - split; intros [_ H]; (split; [ | lia]); [discriminate | reflexivity].
Qed.

(** The effects of [handleCreatePolygon] once its condition holds: those of
    [createPolygon], then the reset unless the call rejected or answered
    with the duplicate-name error. *)
Lemma handleCreatePolygon_actions st post get :
  createGuard st = true ->
  actions (handleCreatePolygon st post get)
  = actions (createPolygon (JsString.trim (newPolygonName st))
                           (currentPolygon st) post get)
    ++ match outcome (createPolygon (JsString.trim (newPolygonName st))
                                    (currentPolygon st) post get) with
       | inl _ => []
       | inr res =>
           if strictEqualsString (optionalProperty res (js "error"))
                                 duplicateNameError
           then []
           else [SetIsDrawing false; SetCurrentPolygon [];
                 SetNewPolygonName []; SetShowNameDialog false]
       end.
Proof.
  intros Hg. unfold handleCreatePolygon. rewrite Hg.
  unfold bind at 1, actions, outcome.
  destruct (snd (createPolygon _ _ post get)) as [e|res]; simpl.
  - rewrite app_nil_r. reflexivity.
  - destruct (strictEqualsString _ _); reflexivity.
Qed.

Lemma handleCreatePolygon_outcome st post get :
  createGuard st = true ->
  outcome (handleCreatePolygon st post get)
  = match outcome (createPolygon (JsString.trim (newPolygonName st))
                                 (currentPolygon st) post get) with
    | inl e => inl e
    | inr _ => inr tt
    end.
Proof.
  intros Hg. unfold handleCreatePolygon. rewrite Hg.
  unfold bind at 1, actions, outcome.
  destruct (snd (createPolygon _ _ post get)) as [e|res]; simpl.
  - reflexivity.
  - destruct (strictEqualsString _ _); reflexivity.
Qed.

(** C3: the create call is issued only when the trimmed name is non-empty
    and the draft has at least three points; when either fails the handler
    makes no request and changes no state. *)
Theorem handleCreatePolygon_guard (st : State)
    (post : FetchOutcome Json) (get : FetchOutcome (list Polygon)) :
  let trimmed := JsString.trim (newPolygonName st) in
  let pts := currentPolygon st in
  let acts := actions (handleCreatePolygon st post get) in
  ((exists n p, In (Fetch (PostPolygon n p)) acts)
   <-> (trimmed <> [] /\ 3 <= length pts))
  /\ (In (Fetch (PostPolygon trimmed pts)) acts
      <-> (trimmed <> [] /\ 3 <= length pts))
  /\ (~ (trimmed <> [] /\ 3 <= length pts) ->
      acts = [] /\ requests acts = [] /\ run acts st = st).
Proof.
  intros trimmed pts acts. subst trimmed pts acts.
  rewrite <- createGuard_spec.
  destruct (createGuard st) eqn:Hg.
  - assert (Hin : In (Fetch (PostPolygon (JsString.trim (newPolygonName st))
                                          (currentPolygon st)))
                    (actions (handleCreatePolygon st post get))).
    { rewrite handleCreatePolygon_actions by exact Hg.
      apply in_or_app. left. apply requests_In.
      rewrite createPolygon_requests. left. reflexivity. }
    split; [ | split ].
    + split; [intros _; reflexivity | intros _; eauto].
    + split; [intros _; reflexivity | intros _; exact Hin].
    + intros H. destruct H. reflexivity.
  - unfold handleCreatePolygon. rewrite Hg. simpl.
    split; [ | split ].
    + split; [intros (n & p & []) | discriminate].
    + split; [intros [] | discriminate].
    + intros _. repeat split.
Qed.

(** C4: a successful [list()] replaces the collection by the response as it
    is, without merging or de-duplicating; a non-success status or a
    transport failure (and a success whose body cannot be read) leaves the
    collection as it was. *)
Theorem fetchPolygons_collection (st : State)
    (get : FetchOutcome (list Polygon)) :
  polygons (run (actions (fetchPolygons get)) st)
  = match get with
    | inr (mkResponse true (inr data)) => data
    | inr (mkResponse true (inl _)) => polygons st
    | inr (mkResponse false _) => polygons st
    | inl _ => polygons st
    end.
Proof. by_outcome get; reflexivity. Qed.

(** X21: the delete handler of the current component first asks for
    confirmation and issues the delete call exactly when the answer was
    yes; when it is declined no request is made and the state, the
    collection included, is unchanged. *)
Theorem handleDeletePolygon_confirmation (st : State) (id : Z) (confirmed : bool)
    (del : FetchOutcome unit) (get : FetchOutcome (list Polygon)) :
  let acts := actions (handleDeletePolygon id confirmed del get) in
  acts = WindowConfirm (js "Are you sure you want to delete this polygon?")
         :: (if confirmed then actions (deletePolygon id del get) else [])
  /\ (In (Fetch (DeletePolygon id)) acts <-> confirmed = true)
  /\ ((exists r, In (Fetch r) acts) <-> confirmed = true)
  /\ (confirmed = false ->
      requests acts = [] /\ run acts st = st
      /\ polygons (run acts st) = polygons st).
Proof.
  intros acts. subst acts.
  assert (Hacts : actions (handleDeletePolygon id confirmed del get)
                  = WindowConfirm (js "Are you sure you want to delete this polygon?")
                    :: (if confirmed then actions (deletePolygon id del get)
                        else [])).
  { unfold handleDeletePolygon, bind at 1. simpl.
    destruct confirmed; reflexivity. }
  assert (Hdel : In (Fetch (DeletePolygon id)) (actions (deletePolygon id del get))).
  { by_outcome del; by_outcome get; simpl; auto. }
  rewrite Hacts. destruct confirmed.
  - split; [reflexivity|]. split; [|split].
    + split; [reflexivity | intros _; right; exact Hdel].
    + split; [reflexivity | intros _; eexists; right; exact Hdel].
    + discriminate.
  - split; [reflexivity|]. split; [|split].
    + split; [intros [H|[]]; discriminate H | discriminate].
    + split; [intros (r & [H|[]]); discriminate H | discriminate].
    + intros _. repeat split.
Qed.

(** C8: [cancelDrawing()] followed by [startDrawing()] leaves an empty draft,
    whatever had been accumulated; the same through the two buttons. *)
Theorem cancel_then_start_empty_draft (st : State) :
  currentPolygon (run (actions startDrawing) (run (actions cancelDrawing) st)) = []
  /\ isDrawing (run (actions startDrawing) (run (actions cancelDrawing) st)) = true
  /\ currentPolygon (steps st [ClickCancelDrawing; ClickDrawNewPolygon]) = [].
Proof.
  repeat split.
  unfold steps, step, dispatch. simpl.
  rewrite actionable_cancelDrawing, actionable_drawNew.
  destruct (isDrawing st) eqn:Hd; simpl.
  - reflexivity.
  - rewrite Hd. reflexivity.
Qed.

(** ** Saving the draft *)

Lemma createPolygon_keeps_interaction name pts post get :
  let acts := actions (createPolygon name pts post get) in
  Forall (Keeps currentPolygon) acts /\ Forall (Keeps isDrawing) acts
  /\ Forall (Keeps newPolygonName) acts /\ Forall (Keeps showNameDialog) acts.
Proof.
  intros acts.
  pose proof (forallb_Forall _ _ (createPolygon_footprint name pts post get)) as H.
  fold acts in H.
  repeat split; eapply Forall_impl; try exact H;
    intros a Ha; apply (syncEffect_keeps_interaction a Ha).
Qed.

(** X1, the duplicate-name half of C1: when the value [createPolygon]
    resolves to carries the duplicate-name error, the draft points, the
    entered name, the drawing flag and the dialog flag are as before. *)
Lemma handleCreatePolygon_duplicate_kept st post get res :
  createGuard st = true ->
  outcome (createPolygon (JsString.trim (newPolygonName st))
                         (currentPolygon st) post get) = inr res ->
  strictEqualsString (optionalProperty res (js "error")) duplicateNameError = true ->
  let st' := run (actions (handleCreatePolygon st post get)) st in
  currentPolygon st' = currentPolygon st
  /\ newPolygonName st' = newPolygonName st
  /\ isDrawing st' = isDrawing st
  /\ showNameDialog st' = showNameDialog st.
Proof.
  intros Hg Hres Hdup st'. subst st'.
  rewrite handleCreatePolygon_actions by exact Hg.
  rewrite Hres, Hdup, app_nil_r.
  destruct (createPolygon_keeps_interaction
              (JsString.trim (newPolygonName st)) (currentPolygon st) post get)
    as (H1 & H2 & H3 & H4).
  repeat split; apply run_keeps; assumption.
Qed.

(** X2, the reset half of C1: when [createPolygon] resolves to a value
    without the duplicate-name error (a success, a rejection with a JSON
    body, or [null] after a transport failure), the draft and the name are
    cleared, the dialog is closed and drawing ends. *)
Lemma handleCreatePolygon_reset st post get res :
  createGuard st = true ->
  outcome (createPolygon (JsString.trim (newPolygonName st))
                         (currentPolygon st) post get) = inr res ->
  strictEqualsString (optionalProperty res (js "error")) duplicateNameError = false ->
  let st' := run (actions (handleCreatePolygon st post get)) st in
  currentPolygon st' = [] /\ newPolygonName st' = []
  /\ isDrawing st' = false /\ showNameDialog st' = false.
Proof.
  intros Hg Hres Hdup st'. subst st'.
  rewrite handleCreatePolygon_actions by exact Hg.
  rewrite Hres, Hdup, run_app. repeat split.
Qed.

(** The store rejects "Zone1" as a duplicate: the draft stays as it is. *)
Lemma handleCreatePolygon_duplicate_kept_witness :
  let st' := run (actions (handleCreatePolygon Sample.naming
                             Sample.rejectedAsDuplicate
                             (inl Sample.networkError))) Sample.naming in
  currentPolygon st' = Sample.triangle
  /\ newPolygonName st' = js "Zone1"
  /\ isDrawing st' = true
  /\ showNameDialog st' = true.
Proof.
  exact (@handleCreatePolygon_duplicate_kept Sample.naming
           Sample.rejectedAsDuplicate (inl Sample.networkError)
           (JObject [(js "error", JString duplicateNameError)])
           eq_refl eq_refl eq_refl).
Defined.

(** The store accepts the polygon: the draft is reset. *)
Lemma handleCreatePolygon_reset_witness :
  let st' := run (actions (handleCreatePolygon Sample.naming
                             (inr (mkResponse true (inr JNull)))
                             (Sample.listOk [Sample.polygonA; Sample.polygonC])))
                 Sample.naming in
  currentPolygon st' = [] /\ newPolygonName st' = []
  /\ isDrawing st' = false /\ showNameDialog st' = false.
Proof.
  exact (@handleCreatePolygon_reset Sample.naming
           (inr (mkResponse true (inr JNull)))
           (Sample.listOk [Sample.polygonA; Sample.polygonC])
           JNull eq_refl eq_refl eq_refl).
Defined.

(** A transport failure is one of the resets: [createPolygon] catches it and
    resolves to [null]. *)
Lemma handleCreatePolygon_transport_failure st error get :
  createGuard st = true ->
  let r := handleCreatePolygon st (inl error) get in
  outcome r = inr tt
  /\ currentPolygon (run (actions r) st) = []
  /\ newPolygonName (run (actions r) st) = []
  /\ isDrawing (run (actions r) st) = false
  /\ showNameDialog (run (actions r) st) = false.
Proof.
  intros Hg r. subst r.
  rewrite handleCreatePolygon_outcome, handleCreatePolygon_actions by exact Hg.
  rewrite createPolygon_outcome. cbv iota beta.
  change (strictEqualsString (optionalProperty JNull (js "error"))
                             duplicateNameError) with false.
  cbv iota. rewrite run_app. repeat split.
Qed.

(** When reading the body of the answer fails, whatever the status, the
    handler's promise rejects after [createPolygon] has run and none of the
    four resets is reached. *)
Lemma handleCreatePolygon_unread_body st isOk error get :
  createGuard st = true ->
  let r := handleCreatePolygon st (inr (mkResponse isOk (inl error))) get in
  outcome r = inl error
  /\ currentPolygon (run (actions r) st) = currentPolygon st
  /\ newPolygonName (run (actions r) st) = newPolygonName st
  /\ isDrawing (run (actions r) st) = isDrawing st
  /\ showNameDialog (run (actions r) st) = showNameDialog st.
Proof.
  intros Hg r. subst r.
  rewrite handleCreatePolygon_outcome, handleCreatePolygon_actions by exact Hg.
  rewrite createPolygon_outcome. simpl body. cbv iota. rewrite app_nil_r.
  destruct (createPolygon_keeps_interaction
              (JsString.trim (newPolygonName st)) (currentPolygon st)
              (inr (mkResponse isOk (inl error))) get)
    as (H1 & H2 & H3 & H4).
  repeat split; apply run_keeps; assumption.
Qed.

(** X17: the earlier variant always resets: its [createPolygon] reads no body
    and cannot reject. *)
Lemma Legacy_handleSavePolygon_reset st post get :
  createGuard st = true ->
  let r := Legacy.handleSavePolygon st post get in
  outcome r = inr tt
  /\ currentPolygon (run (actions r) st) = []
  /\ newPolygonName (run (actions r) st) = []
  /\ isDrawing (run (actions r) st) = false
  /\ showNameDialog (run (actions r) st) = false.
Proof.
  intros Hg r. subst r. unfold Legacy.handleSavePolygon. rewrite Hg.
  by_outcome post; by_outcome get; repeat split.
Qed.

(** C1: a save rejected for a reason other than a duplicate name must reset
    the draft.  Here the store answers the create call of the draft "Zone1"
    with a non-success status and an HTML body: the body cannot be read, the
    handler's promise rejects, and the draft points, the name, the drawing
    flag and the open dialog are all still there. *)
Theorem handleCreatePolygon_unparsed_rejection_keeps_draft :
  let r := handleCreatePolygon Sample.naming Sample.rejectedWithHtmlBody
                               (inl Sample.networkError) in
  let st' := run (actions r) Sample.naming in
  outcome r = inl Sample.syntaxError
  /\ requests (actions r) = [PostPolygon (js "Zone1") Sample.triangle]
  /\ currentPolygon st' = Sample.triangle
  /\ newPolygonName st' = js "Zone1"
  /\ isDrawing st' = true
  /\ showNameDialog st' = true
  /\ loading st' = false.
Proof. vm_compute. repeat split. Qed.

(** ** Gating by [loading] *)

(** C2, as stated, fails: while the first [list()] is in flight the "Draw
    New Polygon" button still starts a drawing session. *)
Lemma loading_does_not_gate_every_action :
  ~ (forall st ev,
       loading st = true -> isGatedAction ev = true ->
       dispatch st ev = ret tt).
Proof.
  intros H.
  specialize (H Sample.mounting ClickDrawNewPolygon eq_refl eq_refl).
  vm_compute in H. discriminate H.
Qed.

(** C2, amended: while [loading] holds, the "Save Polygon" button and the
    two buttons of the naming dialog are disabled, so opening, confirming
    and cancelling the save do nothing and issue no call.  Starting to draw,
    clicking the canvas and deleting do not look at [loading]: they run
    their handler whenever their control is on screen. *)
Theorem loading_gates_save_controls (st : State) :
  loading st = true ->
  dispatch st ClickSavePolygon = ret tt
  /\ (forall post get, dispatch st (ClickDialogSave post get) = ret tt)
  /\ dispatch st ClickDialogCancel = ret tt
  /\ dispatch st ClickDrawNewPolygon
     = (if isDrawing st then ret tt else startDrawing)
  /\ (forall canvasRef e,
        dispatch st (ClickCanvas canvasRef e) = handleCanvasClick st canvasRef e)
  /\ (forall i confirmed del get,
        dispatch st (ClickDelete i confirmed del get)
        = if existsb (fun polygon => Z.eqb (id polygon) i) (polygons st)
          then handleDeletePolygon i confirmed del get
          else ret tt).
Proof.
  intros Hl. unfold dispatch. simpl target. cbv beta iota.
  rewrite actionable_save, actionable_dialogSave, actionable_dialogCancel,
    actionable_drawNew, actionable_canvas, Hl.
  rewrite !andb_false_r. simpl.
  repeat split.
  - destruct (isDrawing st); reflexivity.
  - intros. rewrite actionable_delete. reflexivity.
Qed.

(** With the naming dialog open during a call, neither save control acts. *)
Lemma loading_gates_save_controls_witness :
  loading Sample.namingWhileLoading = true
  /\ dispatch Sample.namingWhileLoading ClickSavePolygon = ret tt
  /\ dispatch Sample.namingWhileLoading
       (ClickDialogSave Sample.rejectedAsDuplicate (inl Sample.networkError))
     = ret tt.
Proof.
  split; [reflexivity|].
  split.
  - exact (proj1 (loading_gates_save_controls Sample.namingWhileLoading eq_refl)).
  - exact (proj1 (proj2 (loading_gates_save_controls Sample.namingWhileLoading eq_refl))
             Sample.rejectedAsDuplicate (inl Sample.networkError)).
Defined.

(** ** Clicks on the canvas *)

Lemma dispatch_target (st : State) (ev : Event) (c : Control) :
  target ev = Some c ->
  dispatch st ev = if actionable st c then handler st ev else ret tt.
Proof. intros H. unfold dispatch. rewrite H. reflexivity. Qed.

(** One accepted click: the point is appended, and the flag is raised when
    the draft already had two points before it. *)
Lemma step_click (st : State) (canvas : Canvas) (e : MouseEvent) :
  isDrawing st = true ->
  step st (ClickCanvas (Some canvas) e)
  = mkState (polygons st) (currentPolygon st ++ [clickPoint canvas e])
            (isDrawing st) (newPolygonName st)
            (showSaveButton st || (1 <? length (currentPolygon st)))
            (showNameDialog st) (loading st).
Proof.
  intros Hd. unfold step.
  rewrite (dispatch_target st (ClickCanvas (Some canvas) e) eq_refl).
  rewrite actionable_canvas. simpl handler. unfold handleCanvasClick.
  rewrite Hd. simpl negb. cbv iota.
  destruct (1 <? length (currentPolygon st)); simpl.
  - rewrite orb_true_r, ?Hd. reflexivity.
  - rewrite orb_false_r, ?Hd. reflexivity.
Qed.

Lemma flag_after_click (n k : nat) :
  (1 <? n) || (negb (k =? 0) && (3 <=? n + 1 + k)) = (3 <=? n + S k).
Proof.
  apply eq_iff_eq_true.
  rewrite orb_true_iff, andb_true_iff, negb_true_iff, Nat.eqb_neq,
    Nat.ltb_lt, !Nat.leb_le.
  lia.
Qed.

Lemma steps_clicks (canvas : Canvas) (es : list MouseEvent) :
  forall st,
  isDrawing st = true ->
  let st' := steps st (List.map (ClickCanvas (Some canvas)) es) in
  currentPolygon st' = currentPolygon st ++ List.map (clickPoint canvas) es
  /\ showSaveButton st'
     = showSaveButton st
       || (negb (length es =? 0)
           && (3 <=? length (currentPolygon st) + length es))
  /\ isDrawing st' = true
  /\ loading st' = loading st.
Proof.
  induction es as [|e es IH]; intros st Hd.
  - simpl. rewrite app_nil_r, orb_false_r. auto.
  - cbv zeta. unfold steps. simpl List.map. simpl fold_left.
    rewrite step_click by exact Hd.
    set (st1 := mkState _ _ _ _ _ _ _).
    destruct (IH st1 Hd) as (Hc & Hf & Hd' & Hl).
    unfold steps in Hc, Hf, Hd', Hl.
    rewrite Hc, Hf, Hd', Hl. subst st1. simpl.
    rewrite <- app_assoc, length_app. simpl.
    repeat split.
    rewrite <- orb_assoc, flag_after_click. reflexivity.
Qed.

(** C5, as stated, fails: in a first session the draft has two points after
    two clicks and the save button is not on screen. *)
Lemma save_button_hidden_with_two_points :
  ~ (forall es,
       let st' := steps (step initialState ClickDrawNewPolygon)
                        (List.map (ClickCanvas (Some Sample.canvas)) es) in
       saveVisible st' = (1 <? length (currentPolygon st'))).
Proof.
  intros H.
  specialize (H [Sample.click 10 10; Sample.click 20 10]).
  vm_compute in H. discriminate H.
Qed.

(** C5, amended: in a session entered with an empty draft and the flag still
    down, after any sequence of accepted clicks the save button is on screen
    exactly when the draft has at least three points (the handler tests the
    length before it appends), and it can be used exactly when moreover
    [loading] is false; in any drawing state where the button is shown it is
    disabled exactly when the draft has fewer than three points or [loading]
    holds. *)
Theorem save_button_after_clicks (st : State) (canvas : Canvas)
    (es : list MouseEvent) :
  isDrawing st = true -> currentPolygon st = [] -> showSaveButton st = false ->
  let st' := steps st (List.map (ClickCanvas (Some canvas)) es) in
  currentPolygon st' = List.map (clickPoint canvas) es
  /\ saveVisible st' = (3 <=? length (currentPolygon st'))
  /\ actionable st' SavePolygonButton
     = (3 <=? length (currentPolygon st')) && negb (loading st')
  /\ (forall s, isDrawing s = true -> saveVisible s = true ->
      actionable s SavePolygonButton
      = negb ((length (currentPolygon s) <? 3) || loading s)).
Proof.
  intros Hd Hc Hf st'.
  destruct (steps_clicks canvas es st Hd) as (Hc' & Hf' & Hd' & _).
  change (steps st (List.map (ClickCanvas (Some canvas)) es)) with st'
    in Hc', Hf', Hd'.
  rewrite Hc in Hc', Hf'. rewrite Hf in Hf'.
  change ([] ++ List.map (clickPoint canvas) es)
    with (List.map (clickPoint canvas) es) in Hc'.
  change (length (@nil Point) + length es) with (length es) in Hf'.
  assert (Hlen : length (currentPolygon st') = length es)
    by (rewrite Hc'; apply length_map).
  assert (Hflag : showSaveButton st' = (3 <=? length (currentPolygon st'))).
  { rewrite Hf', Hlen, orb_false_l.
    destruct (length es) as [|k]; reflexivity. }
  split; [exact Hc'|]. split; [rewrite saveVisible_flag; exact Hflag|]. split.
  - rewrite actionable_save, Hflag, Hd', Nat.ltb_antisym.
    generalize (3 <=? length (currentPolygon st')), (loading st').
    intros [] []; reflexivity.
  - intros s Hs Hv. rewrite saveVisible_flag in Hv.
    rewrite actionable_save, Hv, Hs.
    generalize (length (currentPolygon s) <? 3), (loading s).
    intros [] []; reflexivity.
Qed.

(** A first session of three clicks. *)
Lemma save_button_after_clicks_witness :
  let st' := steps (step initialState ClickDrawNewPolygon)
               (List.map (ClickCanvas (Some Sample.canvas))
                  [Sample.click 10 10; Sample.click 20 10; Sample.click 20 20]) in
  saveVisible st' = (3 <=? length (currentPolygon st')).
Proof.
  exact (proj1 (proj2
    (save_button_after_clicks (step initialState ClickDrawNewPolygon)
       Sample.canvas
       [Sample.click 10 10; Sample.click 20 10; Sample.click 20 20]
       eq_refl eq_refl eq_refl))).
Defined.

(** ** The save-affordance flag only goes up *)

Lemma syncEffect_not_lowering (a : Action) :
  syncEffect a = true -> a <> SetShowSaveButton false.
Proof. intros H E. rewrite E in H. discriminate H. Qed.

Ltac not_lowering :=
  simpl; repeat (apply Forall_cons; [discriminate|]); apply Forall_nil.

(** No handler ever asks for the flag to be lowered, whatever the state it
    was created in and whatever the outside world answers. *)
Lemma no_handler_lowers_save_flag (st : State) (ev : Event) :
  Forall (fun a => a <> SetShowSaveButton false) (actions (handler st ev)).
Proof.
  destruct ev as [get| | |i confirmed del get|canvasRef e| | |value| |post get];
    try not_lowering.
  - by_outcome get; not_lowering.
  - destruct confirmed; [by_outcome del; by_outcome get|]; not_lowering.
  - unfold handler, handleCanvasClick.
    destruct (isDrawing st); [|not_lowering].
    destruct canvasRef; [|not_lowering].
    destruct (1 <? length (currentPolygon st)); not_lowering.
  - unfold handler. destruct (createGuard st) eqn:Hg.
    + rewrite handleCreatePolygon_actions by exact Hg.
      apply Forall_app. split.
      * eapply Forall_impl;
          [ | exact (forallb_Forall _ _ (createPolygon_footprint _ _ post get)) ].
        exact syncEffect_not_lowering.
      * destruct (outcome _); [apply Forall_nil|].
        destruct (strictEqualsString _ _); not_lowering.
    + unfold handleCreatePolygon. rewrite Hg. not_lowering.
Qed.

Lemma dispatch_keeps_save_flag_up (st : State) (ev : Event) :
  Forall KeepsSaveFlagUp (actions (dispatch st ev)).
Proof.
  assert (H : Forall (fun a => a <> SetShowSaveButton false)
                     (actions (dispatch st ev))).
  { unfold dispatch. destruct (target ev) as [c|].
    - destruct (actionable st c);
        [apply no_handler_lowers_save_flag | apply Forall_nil].
    - apply no_handler_lowers_save_flag. }
  eapply Forall_impl; [ | exact H ].
  intros a Ha s Hs. destruct a; simpl; try exact Hs.
  destruct b; [reflexivity | destruct Ha; reflexivity].
Qed.

Lemma step_keeps_save_flag_up (st : State) (ev : Event) :
  showSaveButton st = true -> showSaveButton (step st ev) = true.
Proof. apply run_save_flag_up, dispatch_keeps_save_flag_up. Qed.

Lemma step_cancel_not_drawing (st : State) :
  isDrawing (step st ClickCancelDrawing) = false.
Proof.
  unfold step. rewrite (dispatch_target st ClickCancelDrawing eq_refl).
  rewrite actionable_cancelDrawing.
  destruct (isDrawing st) eqn:Hd; [reflexivity | exact Hd].
Qed.

Lemma step_drawNew_empty_draft (st : State) :
  isDrawing st = false ->
  currentPolygon (step st ClickDrawNewPolygon) = [].
Proof.
  intros Hd. unfold step.
  rewrite (dispatch_target st ClickDrawNewPolygon eq_refl).
  rewrite actionable_drawNew, Hd. reflexivity.
Qed.

(** C10: once the flag of the save affordance is up it stays up through
    every later event (cancel, start, a save that succeeds or fails, and all
    the others): the button remains on screen, disabled whenever no drawing
    is going on or the draft has fewer than three points, in particular
    right after a session ended and at the start of every later one. *)
Theorem showSaveButton_latches (st : State) (evs : list Event) :
  showSaveButton st = true ->
  let st' := steps st evs in
  showSaveButton st' = true
  /\ saveVisible st' = true
  /\ (isDrawing st' = false \/ length (currentPolygon st') < 3 ->
      actionable st' SavePolygonButton = false)
  /\ (saveVisible (step st' ClickCancelDrawing) = true
      /\ actionable (step st' ClickCancelDrawing) SavePolygonButton = false)
  /\ (forall post get,
        saveVisible (step st' (ClickDialogSave post get)) = true)
  /\ (isDrawing st' = false ->
      saveVisible (step st' ClickDrawNewPolygon) = true
      /\ actionable (step st' ClickDrawNewPolygon) SavePolygonButton = false).
Proof.
  intros Hst st'.
  assert (Hup : showSaveButton st' = true).
  { subst st'. revert st Hst. unfold steps.
    induction evs as [|ev evs IH]; intros st Hst; simpl; [exact Hst|].
    apply IH, step_keeps_save_flag_up, Hst. }
  assert (Hoff : forall s,
            isDrawing s = false \/ length (currentPolygon s) < 3 ->
            actionable s SavePolygonButton = false).
  { intros s Hs. rewrite actionable_save.
    destruct Hs as [Hs|Hs].
    - rewrite Hs. simpl. rewrite orb_true_r, andb_false_r. reflexivity.
    - apply Nat.ltb_lt in Hs. rewrite Hs, !orb_true_r, andb_false_r.
      reflexivity. }
  split; [exact Hup|].
  split; [rewrite saveVisible_flag; exact Hup|].
  split; [apply Hoff|].
  split; [split|split].
  - rewrite saveVisible_flag. apply step_keeps_save_flag_up, Hup.
  - apply Hoff. left. apply step_cancel_not_drawing.
  - intros post get. rewrite saveVisible_flag.
    apply step_keeps_save_flag_up, Hup.
  - intros Hd. split.
    + rewrite saveVisible_flag. apply step_keeps_save_flag_up, Hup.
    + apply Hoff. right. rewrite step_drawNew_empty_draft by exact Hd.
      simpl. lia.
Qed.

(** A save that succeeds, then a cancelled session, then a new one. *)
Lemma showSaveButton_latches_witness :
  saveVisible
    (steps Sample.naming
       [ClickDialogSave (inr (mkResponse true (inr JNull)))
                        (Sample.listOk [Sample.polygonA; Sample.polygonC]);
        ClickDrawNewPolygon;
        ClickCanvas (Some Sample.canvas) (Sample.click 30 30);
        ClickCancelDrawing;
        ClickDrawNewPolygon]) = true.
Proof.
  exact (proj1 (proj2
    (showSaveButton_latches Sample.naming
       [ClickDialogSave (inr (mkResponse true (inr JNull)))
                        (Sample.listOk [Sample.polygonA; Sample.polygonC]);
        ClickDrawNewPolygon;
        ClickCanvas (Some Sample.canvas) (Sample.click 30 30);
        ClickCancelDrawing;
        ClickDrawNewPolygon]
       eq_refl))).
Defined.

(** ** Rendering the saved polygons *)

Lemma forEachFrom_app {A B} (f : A -> nat -> list B) (a b : list A) (index : nat) :
  forEachFrom f index (a ++ b)
  = forEachFrom f index a ++ forEachFrom f (index + length a) b.
Proof.
  revert index. induction a as [|x a IH]; intros index; simpl.
  - rewrite Nat.add_0_r. reflexivity.
  - rewrite IH, <- app_assoc, Nat.add_succ_comm. reflexivity.
Qed.

Lemma forEach_split {A B} (f : A -> nat -> list B) (before after : list A) (x : A) :
  forEach f (before ++ x :: after)
  = forEach f before ++ f x (length before)
    ++ forEachFrom f (S (length before)) after.
Proof. unfold forEach. rewrite forEachFrom_app. reflexivity. Qed.

Lemma drawSavedPolygon_skipped (polygon : Polygon) (index : nat) :
  (points polygon = None
   \/ exists pts, points polygon = Some pts /\ length pts < 3) ->
  drawSavedPolygon polygon index = [].
Proof.
  unfold drawSavedPolygon. intros [H | (pts & H & Hlen)]; rewrite H.
  - reflexivity.
  - destruct (Nat.ltb_spec 2 (length pts)); [lia | reflexivity].
Qed.

Lemma fillStyleOf_hsla (hue : nat) : fillStyleOf hue = hsla hue 70 50 "0.3".
Proof. reflexivity. Qed.

Lemma strokeStyleOf_hsl (hue : nat) : strokeStyleOf hue = hsl hue 70 40.
Proof. reflexivity. Qed.

Lemma drawSavedPolygon_drawn (polygon : Polygon) (pts : list Point) (index : nat) :
  points polygon = Some pts -> 3 <= length pts ->
  drawSavedPolygon polygon index
  = [BeginPath; MoveTo (coord (nth 0 pts []) 0) (coord (nth 0 pts []) 1)]
    ++ lineTos pts
    ++ [ClosePath;
        SetFillStyle (hsla (index * 60) 70 50 "0.3"); Fill;
        SetStrokeStyle (hsl (index * 60) 70 40);
        SetLineWidth 2; Stroke]
    ++ nameLabel polygon pts.
Proof.
  intros Hp Hlen. unfold drawSavedPolygon. rewrite Hp.
  destruct (Nat.ltb_spec 2 (length pts)); [|lia].
  destruct (Nat.ltb_spec 0 (length pts)); [|lia].
  reflexivity.
Qed.

(** C6: the polygon at index [i] of the collection, when it is drawn, is
    filled with [hsla(h, 70%, 50%, 0.3)] and stroked with
    [hsl(h, 70%, 40%)] at line width 2, where [h = (i mod N) * 60] for [N]
    the size of the collection; that number is [i * 60], the same angle as
    [(i mod 6) * 60] on the colour wheel.  At index 2 the fill is
    [hsla(120, 70%, 50%, 0.3)] whatever the name and the points. *)
Theorem saved_polygon_hue (ps : list Polygon) (i : nat) (polygon : Polygon)
    (pts : list Point) :
  nth_error ps i = Some polygon ->
  points polygon = Some pts ->
  3 <= length pts ->
  let hue := (i mod length ps) * 60 in
  drawSavedPolygon polygon i
  = [BeginPath; MoveTo (coord (nth 0 pts []) 0) (coord (nth 0 pts []) 1)]
    ++ lineTos pts
    ++ [ClosePath;
        SetFillStyle (hsla hue 70 50 "0.3"); Fill;
        SetStrokeStyle (hsl hue 70 40);
        SetLineWidth 2; Stroke]
    ++ nameLabel polygon pts
  /\ (exists before after,
        ps = before ++ polygon :: after /\ length before = i
        /\ forEach drawSavedPolygon ps
           = forEach drawSavedPolygon before
             ++ drawSavedPolygon polygon i
             ++ forEachFrom drawSavedPolygon (S i) after)
  /\ (hue mod 360 = (i mod 6) * 60 /\ hue = polygonHue i)
  /\ (i = 2 ->
      In (SetFillStyle (js "hsla(120, 70%, 50%, 0.3)"))
         (drawSavedPolygon polygon i)).
Proof.
  intros Hnth Hp Hlen hue.
  assert (Hi : i < length ps) by (apply nth_error_Some; congruence).
  assert (Hhue : hue = i * 60)
    by (subst hue; rewrite Nat.mod_small by exact Hi; reflexivity).
  rewrite Hhue.
  pose proof (drawSavedPolygon_drawn polygon i Hp Hlen) as Hdraw.
  split; [exact Hdraw|]. split; [|split].
  - destruct (nth_error_split ps i Hnth) as (before & after & Hps & Hb).
    exists before, after. repeat split; try assumption.
    rewrite Hps at 1. rewrite forEach_split, Hb. reflexivity.
  - split; [|reflexivity].
    change 360 with (6 * 60). apply Nat.Div0.mul_mod_distr_r.
  - intros Hi2. rewrite Hdraw, Hi2.
    apply in_or_app. right. apply in_or_app. right.
    apply in_or_app. left. right. left. reflexivity.
Qed.

(** The third polygon of a collection of three. *)
Lemma saved_polygon_hue_witness :
  In (SetFillStyle (js "hsla(120, 70%, 50%, 0.3)"))
     (drawSavedPolygon Sample.polygonC 2).
Proof.
  exact (proj2 (proj2 (proj2
    (@saved_polygon_hue [Sample.polygonA; Sample.polygonB; Sample.polygonC] 2
       Sample.polygonC Sample.triangle eq_refl eq_refl (le_n 3)))) eq_refl).
Defined.

Lemma forEachFrom_indexed {A B} (f : A -> nat -> list B) (l : list A) (index : nat) :
  forEachFrom f index l
  = flat_map (fun ip => f (snd ip) (fst ip)) (combine (seq index (length l)) l).
Proof.
  revert index. induction l as [|x l IH]; intros index; simpl; [reflexivity|].
  rewrite IH. reflexivity.
Qed.

Lemma flat_map_filter_nonempty {A B} (g : A -> list B) (keep : A -> bool) (l : list A) :
  (forall x, keep x = false -> g x = []) ->
  flat_map g l = flat_map g (filter keep l).
Proof.
  intros H. induction l as [|x l IH]; simpl; [reflexivity|].
  destruct (keep x) eqn:K; simpl; rewrite IH; [reflexivity|].
  rewrite (H x K). reflexivity.
Qed.

(** Polygons that are not renderable add no call to the saved-polygon
    pass. *)
Lemma forEach_renderable_only (ps : list Polygon) :
  forEach drawSavedPolygon ps
  = flat_map (fun ip => drawSavedPolygon (snd ip) (fst ip))
      (filter (fun ip => match points (snd ip) with
                         | Some pts => 2 <? length pts
                         | None => false
                         end)
              (combine (seq 0 (length ps)) ps)).
Proof.
  unfold forEach. rewrite forEachFrom_indexed.
  apply flat_map_filter_nonempty.
  intros [i p]. simpl. unfold drawSavedPolygon.
  destruct (points p) as [pts|]; [|reflexivity].
  intros H. rewrite H. reflexivity.
Qed.

(** ** Trimming *)

Example trim_surrounding_whitespace :
  JsString.trim (js "  Zone1 ") = js "Zone1"
  /\ JsString.trim (js " a b ") = js "a b"
  /\ JsString.trim [0x0009; 0x00A0; 0x2003; 0xFEFF; 0x000A]%N = [].
Proof. repeat split. Qed.

Lemma trimStart_no_leading_space (s : jsstring) :
  match JsString.trimStart s with
  | [] => True
  | c :: _ => JsString.isWhiteSpace c = false
  end.
Proof.
  induction s as [|c s IH]; simpl; [exact I|].
  destruct (JsString.isWhiteSpace c) eqn:E; [exact IH | exact E].
Qed.

Lemma trim_all_whitespace (s : jsstring) :
  forallb JsString.isWhiteSpace s = true -> JsString.trim s = [].
Proof.
  intros H. unfold JsString.trim.
  assert (Hs : JsString.trimStart s = []).
  { induction s as [|c s IH]; simpl in *; [reflexivity|].
    apply andb_true_iff in H. destruct H as [Hc Hs]. rewrite Hc. auto. }
  rewrite Hs. reflexivity.
Qed.

(** A name made of blanks only never reaches the store. *)
Example blank_name_is_not_saved :
  handleCreatePolygon
    (mkState [] Sample.triangle true (js "   ") true true false)
    Sample.rejectedAsDuplicate (inl Sample.networkError)
  = ret tt.
Proof. reflexivity. Qed.

(** ** While a call is in flight *)

(** [loading] is raised before the first request of [fetchPolygons] leaves,
    which is the state [Sample.mounting] right after mount. *)
Example mounting_is_reached (get : FetchOutcome (list Polygon)) :
  firstn 3 (actions (fetchPolygons get))
  = [SetLoading true; Delay 5000; Fetch GetPolygons]
  /\ run [SetLoading true] initialState = Sample.mounting.
Proof. by_outcome get; split; reflexivity. Qed.

(** A confirmed delete and a canvas click both go through while [loading]
    holds. *)
Example delete_and_click_run_while_loading :
  requests (actions (dispatch Sample.namingWhileLoading
                       (ClickDelete 1 true Sample.deleteOk (Sample.listOk []))))
  = [DeletePolygon 1; GetPolygons]
  /\ length (currentPolygon
               (step Sample.namingWhileLoading
                     (ClickCanvas (Some Sample.canvas) (Sample.click 50 60))))
     = 4.
Proof. split; reflexivity. Qed.

(** ** The earlier variant *)

Lemma Legacy_fetchPolygons_collection :
  (forall st data,
     polygons (run (actions (Legacy.fetchPolygons
                               (inr (mkResponse true (inr data))))) st) = data)
  /\ (forall st answer,
        polygons (run (actions (Legacy.fetchPolygons
                                  (inr (mkResponse false answer)))) st)
        = polygons st)
  /\ (forall st error,
        polygons (run (actions (Legacy.fetchPolygons (inl error))) st)
        = polygons st).
Proof.
  split; [ | split ]; intros.
  - reflexivity.
  - destruct answer; reflexivity.
  - reflexivity.
Qed.

Lemma Legacy_handleSavePolygon_guard st post get :
  createGuard st = false -> Legacy.handleSavePolygon st post get = ret tt.
Proof. intros H. unfold Legacy.handleSavePolygon. rewrite H. reflexivity. Qed.

(** The earlier variant deletes without asking. *)
Lemma Legacy_handleDeletePolygon_requests id del get :
  In (Fetch (DeletePolygon id)) (actions (Legacy.handleDeletePolygon id del get)).
Proof. by_outcome del; by_outcome get; simpl; auto. Qed.

(* ================================================================= *)
(** * Further properties of the component *)

(** ** What a frame paints *)

Lemma contextAfter_app (c : Context2D) (a b : list CanvasOp) :
  contextAfter c (a ++ b) = contextAfter (contextAfter c a) b.
Proof. unfold contextAfter. apply fold_left_app. Qed.

Lemma paint_app (a b : list CanvasOp) :
  forall c, paint c (a ++ b) = paint c a ++ paint (contextAfter c a) b.
Proof.
  induction a as [|op a IH]; intros c; simpl; [reflexivity|].
  rewrite IH, app_assoc. reflexivity.
Qed.

(** Line segments only extend the current path. *)
Lemma paint_segments (l : list Point) :
  forall c,
  paint c (List.map (fun p => LineTo (coord p 0) (coord p 1)) l) = []
  /\ contextAfter c (List.map (fun p => LineTo (coord p 0) (coord p 1)) l)
     = mkContext
         (ctxPath c ++ List.map (fun p => LineTo (coord p 0) (coord p 1)) l)
         (ctxFillStyle c) (ctxStrokeStyle c) (ctxLineWidth c) (ctxFont c).
Proof.
  induction l as [|p l IH]; intros c.
  - simpl. rewrite app_nil_r. destruct c; auto.
  - specialize (IH (contextAfter1 c (LineTo (coord p 0) (coord p 1)))).
    destruct IH as [Hp Hc]. split.
    + simpl. exact Hp.
    + change (contextAfter c
                (List.map (fun p => LineTo (coord p 0) (coord p 1)) (p :: l)))
        with (contextAfter (contextAfter1 c (LineTo (coord p 0) (coord p 1)))
                (List.map (fun p => LineTo (coord p 0) (coord p 1)) l)).
      rewrite Hc. simpl. rewrite <- app_assoc. reflexivity.
Qed.

Lemma paint_vertex_markers (draft : list Point) :
  forall c,
  paint c (flat_map (fun point =>
                       [BeginPath;
                        Arc (coord point 0) (coord point 1) 4 0 (2 * PI)%float;
                        SetFillStyle (js "red");
                        Fill])
                    draft)
  = List.map (fun point =>
                PaintedFill [Arc (coord point 0) (coord point 1) 4 0 (2 * PI)%float]
                            (js "red"))
             draft.
Proof.
  induction draft as [|p draft IH]; intros c; simpl; [reflexivity|].
  rewrite IH. reflexivity.
Qed.

Lemma paint_drawSavedPolygon (polygon : Polygon) (index : nat) (c : Context2D) :
  paint c (drawSavedPolygon polygon index) = paintedSavedPolygon polygon index.
Proof.
  unfold paintedSavedPolygon.
  destruct (points polygon) as [pts|] eqn:Hp;
    [ | unfold drawSavedPolygon; rewrite Hp; reflexivity ].
  destruct (Nat.leb_spec 3 (length pts)) as [Hlen|Hlen].
  - rewrite (drawSavedPolygon_drawn polygon index Hp Hlen).
    simpl app. simpl paint. rewrite paint_app.
    destruct (paint_segments (tl pts)
                (mkContext [MoveTo (coord (nth 0 pts []) 0) (coord (nth 0 pts []) 1)]
                   (ctxFillStyle c) (ctxStrokeStyle c) (ctxLineWidth c) (ctxFont c)))
      as [Hs Hc].
    unfold lineTos. rewrite Hs, Hc. reflexivity.
  - rewrite drawSavedPolygon_skipped; [reflexivity|].
    right. exists pts. split; [exact Hp | lia].
Qed.

Lemma paint_outline (c : Context2D) (x y : number) (l : list Point)
    (rest : list CanvasOp) :
  paint c (BeginPath :: MoveTo x y
           :: List.map (fun p => LineTo (coord p 0) (coord p 1)) l ++ rest)
  = paint (mkContext
             (MoveTo x y :: List.map (fun p => LineTo (coord p 0) (coord p 1)) l)
             (ctxFillStyle c) (ctxStrokeStyle c) (ctxLineWidth c) (ctxFont c))
          rest.
Proof.
  simpl paint. rewrite paint_app.
  destruct (paint_segments l
              (mkContext [MoveTo x y] (ctxFillStyle c) (ctxStrokeStyle c)
                         (ctxLineWidth c) (ctxFont c))) as [Hs Hc].
  rewrite Hs, Hc. reflexivity.
Qed.

Lemma paint_drawCurrentPolygon (draft : list Point) (c : Context2D) :
  paint c (drawCurrentPolygon draft) = paintedDraft draft.
Proof.
  destruct draft as [|p0 rest]; [reflexivity|].
  unfold drawCurrentPolygon, paintedDraft, closedPath, openPath, lineTos.
  change (0 <? length (p0 :: rest)) with true. cbv iota.
  change (tl (p0 :: rest)) with rest.
  change (nth 0 (p0 :: rest) []) with p0.
  change (3 <=? length (p0 :: rest)) with (2 <? length (p0 :: rest)).
  match goal with
  | |- paint c ([BeginPath; MoveTo ?x ?y] ++ ?segs ++ ?tail) = _ =>
      change (paint c (BeginPath :: MoveTo x y :: segs ++ tail) = 
              (if 2 <? length (p0 :: rest)
               then [PaintedFill ((MoveTo x y :: segs) ++ [ClosePath])
                                 (js "rgba(255, 0, 0, 0.3)");
                     PaintedStroke ((MoveTo x y :: segs) ++ [ClosePath])
                                   (js "red") 2]
               else [PaintedStroke (MoveTo x y :: segs) (js "red") 2])
              ++ List.map (fun point =>
                     PaintedFill
                       [Arc (coord point 0) (coord point 1) 4 0 (2 * PI)%float]
                       (js "red")) (p0 :: rest))
  end.
  rewrite paint_outline.
  destruct (2 <? length (p0 :: rest)).
  - simpl app. simpl paint. rewrite paint_vertex_markers. reflexivity.
  - simpl app. simpl paint. rewrite paint_vertex_markers. reflexivity.
Qed.

Lemma paint_forEachFrom (ps : list Polygon) :
  forall index c,
  paint c (forEachFrom drawSavedPolygon index ps)
  = forEachFrom paintedSavedPolygon index ps.
Proof.
  induction ps as [|p ps IH]; intros index c; simpl; [reflexivity|].
  rewrite paint_app, paint_drawSavedPolygon, IH. reflexivity.
Qed.

(** X4: whatever path and attributes an earlier frame (or anything else)
    left in the context, a frame clears the canvas, draws the image over
    all of it, then for each renderable saved polygon fills and strokes the
    closed outline through its points in its own hue and writes its name in
    black, and last paints the draft: filled and closed from three points
    on, stroked in red, one red disc per point. *)
Theorem frame_does_not_depend_on_context (c : Context2D) (canvas : Canvas)
    (ps : list Polygon) (draft : list Point) :
  paint c (onload canvas ps draft)
  = [PaintedClear 0 0 (width canvas) (height canvas);
     PaintedImage 0 0 (width canvas) (height canvas)]
    ++ forEach paintedSavedPolygon ps
    ++ paintedDraft draft.
Proof.
  unfold onload, forEach. simpl app. simpl paint.
  rewrite paint_app, paint_forEachFrom, paint_drawCurrentPolygon.
  reflexivity.
Qed.

(** ** The three remote operations *)

(** X5: each remote operation leaves [loading] false when it is over, on
    every path: success, rejection by the store, transport failure, and a
    body that cannot be read. *)
Theorem loading_released_on_every_path (st : State) (name : jsstring)
    (pts : list Point) (id : Z) (post : FetchOutcome Json)
    (del : FetchOutcome unit) (get : FetchOutcome (list Polygon)) :
  loading (run (actions (fetchPolygons get)) st) = false
  /\ loading (run (actions (createPolygon name pts post get)) st) = false
  /\ loading (run (actions (deletePolygon id del get)) st) = false.
Proof.
  split; [ | split ].
  - by_outcome get; reflexivity.
  - by_outcome post; by_outcome get; reflexivity.
  - by_outcome del; by_outcome get; reflexivity.
Qed.

(** X6: a mutation is followed by exactly one [list()] when the store
    accepted it and by none otherwise, and the collection afterwards is what
    that [list()] made of it: never a local insertion or removal. *)
Theorem mutations_resync_by_refetch (st : State) (name : jsstring)
    (pts : list Point) (id : Z) (post : FetchOutcome Json)
    (del : FetchOutcome unit) (get : FetchOutcome (list Polygon)) :
  (requests (actions (deletePolygon id del get))
   = DeletePolygon id
     :: match del with
        | inr response => if ok response then [GetPolygons] else []
        | inl _ => []
        end
   /\ polygons (run (actions (deletePolygon id del get)) st)
      = match del with
        | inr response =>
            if ok response
            then polygons (run (actions (fetchPolygons get)) st)
            else polygons st
        | inl _ => polygons st
        end)
  /\ (requests (actions (createPolygon name pts post get))
      = PostPolygon name pts
        :: match post with
           | inr response => if ok response then [GetPolygons] else []
           | inl _ => []
           end
      /\ polygons (run (actions (createPolygon name pts post get)) st)
         = match post with
           | inr response =>
               if ok response
               then polygons (run (actions (fetchPolygons get)) st)
               else polygons st
           | inl _ => polygons st
           end).
Proof.
  split.
  - by_outcome del; by_outcome get; split; reflexivity.
  - by_outcome post; by_outcome get; split; reflexivity.
Qed.

(** X7: the remote operations write the collection and [loading] only: the
    draft, the drawing flag, the name, the dialog flag and the save flag are
    after each of them what they were before. *)
Theorem sync_controller_leaves_interaction_alone (st : State) (name : jsstring)
    (pts : list Point) (id : Z) (post : FetchOutcome Json)
    (del : FetchOutcome unit) (get : FetchOutcome (list Polygon)) :
  let untouched (st' : State) :=
    currentPolygon st' = currentPolygon st
    /\ isDrawing st' = isDrawing st
    /\ newPolygonName st' = newPolygonName st
    /\ showNameDialog st' = showNameDialog st
    /\ showSaveButton st' = showSaveButton st in
  untouched (run (actions (fetchPolygons get)) st)
  /\ untouched (run (actions (createPolygon name pts post get)) st)
  /\ untouched (run (actions (deletePolygon id del get)) st).
Proof.
  assert (H : forall acts,
            forallb syncEffect acts = true ->
            currentPolygon (run acts st) = currentPolygon st
            /\ isDrawing (run acts st) = isDrawing st
            /\ newPolygonName (run acts st) = newPolygonName st
            /\ showNameDialog (run acts st) = showNameDialog st
            /\ showSaveButton (run acts st) = showSaveButton st).
  { intros acts Hacts. apply forallb_Forall in Hacts.
    repeat split; apply run_keeps; eapply Forall_impl; try exact Hacts;
      intros a Ha; apply (syncEffect_keeps_interaction a Ha). }
  cbv zeta. split; [ | split ]; apply H.
  - apply fetchPolygons_footprint.
  - apply createPolygon_footprint.
  - apply deletePolygon_footprint.
Qed.

(** X8: what the user is told.  [list()] is silent on success and shows one
    error otherwise; create and delete show their success message exactly
    when the store accepted the call, before the messages of the [list()]
    that follows, and one error otherwise.  A create whose answer cannot be
    read shows no error of its own. *)
Theorem notifications_of_remote_calls (name : jsstring) (pts : list Point)
    (id : Z) (post : FetchOutcome Json) (del : FetchOutcome unit)
    (get : FetchOutcome (list Polygon)) :
  toasts (actions (fetchPolygons get))
  = match get with
    | inl error =>
        [ToastError (js "Failed to fetch polygons: " ++ exnToString error)]
    | inr (mkResponse true (inr _)) => []
    | inr (mkResponse true (inl error)) =>
        [ToastError (js "Failed to fetch polygons: " ++ exnToString error)]
    | inr (mkResponse false _) => [ToastError (js "Failed to fetch polygons")]
    end
  /\ toasts (actions (createPolygon name pts post get))
     = match post with
       | inl error =>
           [ToastError (js "Error creating polygon: " ++ exnToString error)]
       | inr response =>
           if ok response
           then ToastSuccess (js "Polygon created successfully!")
                :: toasts (actions (fetchPolygons get))
           else [ToastError (js "Error creating polygon")]
       end
  /\ toasts (actions (deletePolygon id del get))
     = match del with
       | inl error =>
           [ToastError (js "Error deleting polygon: " ++ exnToString error)]
       | inr response =>
           if ok response
           then ToastSuccess (js "Polygon deleted successfully!")
                :: toasts (actions (fetchPolygons get))
           else [ToastError (js "Error deleting polygon")]
       end.
Proof.
  split; [ | split ].
  - by_outcome get; reflexivity.
  - by_outcome post; by_outcome get; reflexivity.
  - by_outcome del; by_outcome get; reflexivity.
Qed.

(** ** What the events send to the store *)

Ltac save_cases st post get :=
  unfold handleCreatePolygon;
  destruct (createGuard st) eqn:?;
  [ by_outcome post; by_outcome get; unfold bind; simpl;
    try match goal with
        | |- context [strictEqualsString ?a ?b] =>
            destruct (strictEqualsString a b)
        end;
    simpl
  | simpl ].

(** The remote calls of every event, exactly. *)
Lemma dispatch_requests (st : State) (ev : Event) :
  requests (actions (dispatch st ev))
  = match ev with
    | Mount _ => [GetPolygons]
    | ClickDelete i confirmed del _ =>
        if actionable st (DeleteButton i) && confirmed
        then DeletePolygon i
             :: match del with
                | inr response => if ok response then [GetPolygons] else []
                | inl _ => []
                end
        else []
    | ClickDialogSave post _ =>
        if actionable st DialogSaveButton && createGuard st
        then PostPolygon (JsString.trim (newPolygonName st)) (currentPolygon st)
             :: match post with
                | inr response => if ok response then [GetPolygons] else []
                | inl _ => []
                end
        else []
    | _ => []
    end.
Proof.
  destruct ev as [get| | |i confirmed del get|canvasRef e| | |value| |post get];
    unfold dispatch; simpl target; cbv beta iota.
  - simpl handler. by_outcome get; reflexivity.
  - destruct (actionable st DrawNewPolygonButton); reflexivity.
  - destruct (actionable st CancelDrawingButton); reflexivity.
  - destruct (actionable st (DeleteButton i)); [|reflexivity].
    destruct confirmed; [|reflexivity].
    simpl handler. by_outcome del; by_outcome get; reflexivity.
  - destruct (actionable st CanvasElement); [|reflexivity].
    simpl handler. unfold handleCanvasClick.
    destruct (isDrawing st); [|reflexivity].
    destruct canvasRef; [|reflexivity].
    destruct (1 <? length (currentPolygon st)); reflexivity.
  - destruct (actionable st SavePolygonButton); reflexivity.
  - destruct (actionable st NameDialog); reflexivity.
  - destruct (actionable st NameField); reflexivity.
  - destruct (actionable st DialogCancelButton); reflexivity.
  - destruct (actionable st DialogSaveButton); [|reflexivity].
    simpl handler. simpl andb.
    save_cases st post get; reflexivity.
Qed.

(** X9: whatever reaches the store as a new polygon has a name with a first
    and a last character that are not blanks and at least three points, the
    points of the draft; it is sent by the save button of the dialog only,
    and only while no other call is in flight. *)
Theorem store_receives_only_wellformed_polygons (st : State) (ev : Event)
    (n : jsstring) (p : list Point) :
  In (Fetch (PostPolygon n p)) (actions (dispatch st ev)) ->
  noSurroundingWhiteSpace n
  /\ n = JsString.trim (newPolygonName st)
  /\ p = currentPolygon st
  /\ 3 <= length p
  /\ (exists post get, ev = ClickDialogSave post get)
  /\ loading st = false.
Proof.
  intros Hin. apply requests_In in Hin. rewrite dispatch_requests in Hin.
  destruct ev as [get| | |i confirmed del get|canvasRef e| | |value| |post get];
    try (simpl in Hin; destruct Hin as [Hin|[]]; discriminate Hin);
    try (destruct Hin).
  - destruct (actionable st (DeleteButton i) && confirmed); [|destruct Hin].
    destruct Hin as [Hin|Hin]; [discriminate Hin|].
    destruct del as [?|[[] ?]]; simpl in Hin;
      try destruct Hin as [Hin|[]]; try discriminate Hin; destruct Hin.
  - rewrite actionable_dialogSave in Hin.
    destruct (showNameDialog st); [|destruct Hin].
    destruct (loading st) eqn:Hl; [destruct Hin|].
    destruct (createGuard st) eqn:Hg; [|destruct Hin].
    simpl in Hin.
    assert (Hnp : PostPolygon (JsString.trim (newPolygonName st)) (currentPolygon st)
                  = PostPolygon n p).
    { destruct Hin as [Hin|Hin]; [exact Hin|].
      destruct post as [?|[[] ?]]; simpl in Hin;
        try destruct Hin as [Hin|[]]; try discriminate Hin; destruct Hin. }
    injection Hnp as Hn Hp. subst n p.
    apply createGuard_spec in Hg. destruct Hg as [Hne Hlen].
    repeat split; try assumption; try reflexivity; eauto.
    + (* first code unit *)
      unfold JsString.trim, JsString.trimEnd in *.
      set (t := JsString.trimStart (newPolygonName st)) in *.
      assert (Hpre : exists w, t = rev (JsString.trimStart (rev t)) ++ w).
      { assert (Hsuf : forall s, exists w, s = w ++ JsString.trimStart s).
        { induction s as [|c s IH]; [exists []; reflexivity|].
          simpl. destruct (JsString.isWhiteSpace c).
          - destruct IH as [w Hw]. exists (c :: w). simpl. congruence.
          - exists []. reflexivity. }
        destruct (Hsuf (rev t)) as [w Hw].
        exists (rev w). rewrite <- rev_app_distr, <- Hw, rev_involutive.
        reflexivity. }
      destruct Hpre as [w Hw].
      destruct (rev (JsString.trimStart (rev t))) as [|c r] eqn:Hr;
        [destruct Hne; reflexivity|].
      exists c, r. split; [reflexivity|].
      pose proof (trimStart_no_leading_space (newPolygonName st)) as Hhead.
      fold t in Hhead. rewrite Hw in Hhead. exact Hhead.
    + (* last code unit *)
      unfold JsString.trim, JsString.trimEnd in *.
      set (t := JsString.trimStart (newPolygonName st)) in *.
      pose proof (trimStart_no_leading_space (rev t)) as Hlast.
      destruct (JsString.trimStart (rev t)) as [|c r] eqn:Hr;
        [destruct Hne; reflexivity|].
      exists c, (rev r). split; [reflexivity | exact Hlast].
Qed.

(** The dialog is open on a draft of three points named " Zone1 ". *)
Lemma store_receives_only_wellformed_polygons_witness :
  noSurroundingWhiteSpace (js "Zone1").
Proof.
  exact (proj1
    (@store_receives_only_wellformed_polygons
       (mkState [] Sample.triangle true (js " Zone1 ") true true false)
       (ClickDialogSave Sample.rejectedAsDuplicate (inl Sample.networkError))
       (js "Zone1") Sample.triangle
       (or_intror (or_intror (or_introl eq_refl))))).
Defined.

(** X10: a delete request is only ever sent for the id of a polygon that is
    in the collection the user sees, after the user confirmed, and by the
    delete button of that polygon. *)
Theorem delete_targets_listed_polygon (st : State) (ev : Event) (i : Z) :
  In (Fetch (DeletePolygon i)) (actions (dispatch st ev)) ->
  (exists polygon, In polygon (polygons st) /\ id polygon = i)
  /\ (exists del get, ev = ClickDelete i true del get).
Proof.
  intros Hin. apply requests_In in Hin. rewrite dispatch_requests in Hin.
  destruct ev as [get| | |j confirmed del get|canvasRef e| | |value| |post get];
    try (simpl in Hin; destruct Hin as [Hin|[]]; discriminate Hin);
    try (destruct Hin).
  - rewrite actionable_delete in Hin.
    destruct (existsb _ (polygons st)) eqn:Hex; [|destruct Hin].
    destruct confirmed; [|destruct Hin].
    simpl in Hin.
    assert (Hj : j = i).
    { destruct Hin as [Hin|Hin]; [congruence|].
      destruct del as [?|[[] ?]]; simpl in Hin;
        try destruct Hin as [Hin|[]]; try discriminate Hin; destruct Hin. }
    subst j. split; [|eauto].
    apply existsb_exists in Hex. destruct Hex as (polygon & Hp & Hid).
    exists polygon. split; [exact Hp | apply Z.eqb_eq, Hid].
  - destruct (actionable st DialogSaveButton && createGuard st); [|destruct Hin].
    destruct Hin as [Hin|Hin]; [discriminate Hin|].
    destruct post as [?|[[] ?]]; simpl in Hin;
      try destruct Hin as [Hin|[]]; try discriminate Hin; destruct Hin.
Qed.

(** The user confirms the deletion of the one listed polygon. *)
Lemma delete_targets_listed_polygon_witness :
  exists polygon, In polygon (polygons Sample.naming) /\ id polygon = 1%Z.
Proof.
  exact (proj1
    (@delete_targets_listed_polygon Sample.naming
       (ClickDelete 1 true Sample.deleteOk (Sample.listOk [])) 1%Z
       (or_intror (or_intror (or_intror (or_introl eq_refl)))))).
Defined.

(** X11: every request of every event leaves after [loading] has been
    raised and before it is lowered again, whatever [loading] was when the
    event arrived. *)
Theorem requests_leave_under_loading (raised : bool) (st : State) (ev : Event) :
  requestsUnderLoading raised (actions (dispatch st ev)) = true.
Proof.
  destruct ev as [get| | |i confirmed del get|canvasRef e| | |value| |post get];
    unfold dispatch; simpl target; cbv beta iota.
  - simpl handler. by_outcome get; reflexivity.
  - destruct (actionable st DrawNewPolygonButton); reflexivity.
  - destruct (actionable st CancelDrawingButton); reflexivity.
  - destruct (actionable st (DeleteButton i)); [|reflexivity].
    destruct confirmed; [|reflexivity].
    simpl handler. by_outcome del; by_outcome get; reflexivity.
  - destruct (actionable st CanvasElement); [|reflexivity].
    simpl handler. unfold handleCanvasClick.
    destruct (isDrawing st); [|reflexivity].
    destruct canvasRef; [|reflexivity].
    destruct (1 <? length (currentPolygon st)); reflexivity.
  - destruct (actionable st SavePolygonButton); reflexivity.
  - destruct (actionable st NameDialog); reflexivity.
  - destruct (actionable st NameField); reflexivity.
  - destruct (actionable st DialogCancelButton); reflexivity.
  - destruct (actionable st DialogSaveButton); [|reflexivity].
    simpl handler. save_cases st post get; reflexivity.
Qed.


(** X13: drawing is local.  Starting and cancelling a drawing, clicking the
    canvas, opening and closing the naming dialog and typing the name send
    nothing to the store and leave the collection and [loading] alone. *)
Theorem drawing_is_local (st : State) (ev : Event) :
  match ev with
  | Mount _ | ClickDelete _ _ _ _ | ClickDialogSave _ _ => True
  | _ =>
      requests (actions (dispatch st ev)) = []
      /\ toasts (actions (dispatch st ev)) = []
      /\ polygons (step st ev) = polygons st
      /\ loading (step st ev) = loading st
  end.
Proof.
  unfold step.
  destruct ev as [get| | |i confirmed del get|canvasRef e| | |value| |post get];
    try exact I; unfold dispatch; simpl target; cbv beta iota.
  - destruct (actionable st DrawNewPolygonButton); repeat split.
  - destruct (actionable st CancelDrawingButton); repeat split.
  - destruct (actionable st CanvasElement); [|repeat split].
    simpl handler. unfold handleCanvasClick.
    destruct (isDrawing st); [|repeat split].
    destruct canvasRef; [|repeat split].
    destruct (1 <? length (currentPolygon st)); repeat split.
  - destruct (actionable st SavePolygonButton); repeat split.
  - destruct (actionable st NameDialog); repeat split.
  - destruct (actionable st NameField); repeat split.
  - destruct (actionable st DialogCancelButton); repeat split.
Qed.

(** ** States the component can be in *)

Lemma steps_app (st : State) (a b : list Event) :
  steps st (a ++ b) = steps (steps st a) b.
Proof. unfold steps. apply fold_left_app. Qed.

Ltac invariants_kept :=
  simpl; repeat split; intros;
  try assumption; try reflexivity; try discriminate; auto;
  try congruence;
  try match goal with
      | H : _ = false -> _ = [] |- _ = [] => apply H; congruence
      end;
  try (exfalso;
       match goal with
       | H : 3 <= _ |- _ => rewrite ?length_app in H; simpl in H; lia
       end).

Lemma step_keeps_invariants (st : State) (ev : Event) :
  loading st = false
  /\ (isDrawing st = false -> currentPolygon st = [])
  /\ (3 <= length (currentPolygon st) -> showSaveButton st = true) ->
  loading (step st ev) = false
  /\ (isDrawing (step st ev) = false -> currentPolygon (step st ev) = [])
  /\ (3 <= length (currentPolygon (step st ev)) ->
      showSaveButton (step st ev) = true).
Proof.
  intros (Hl & Hidle & Hflag). unfold step.
  destruct ev as [get| | |i confirmed del get|canvasRef e| | |value| |post get];
    unfold dispatch; simpl target; cbv beta iota.
  - simpl handler. by_outcome get; invariants_kept.
  - destruct (actionable st DrawNewPolygonButton); invariants_kept.
  - destruct (actionable st CancelDrawingButton); invariants_kept.
  - destruct (actionable st (DeleteButton i)); [|invariants_kept].
    destruct confirmed; [|invariants_kept].
    simpl handler. by_outcome del; by_outcome get; invariants_kept.
  - destruct (actionable st CanvasElement); [|invariants_kept].
    simpl handler. unfold handleCanvasClick.
    destruct (isDrawing st) eqn:Hd; [|invariants_kept].
    destruct canvasRef; [|invariants_kept].
    destruct (Nat.ltb_spec 1 (length (currentPolygon st))); invariants_kept.
  - destruct (actionable st SavePolygonButton); invariants_kept.
  - destruct (actionable st NameDialog); invariants_kept.
  - destruct (actionable st NameField); invariants_kept.
  - destruct (actionable st DialogCancelButton); invariants_kept.
  - destruct (actionable st DialogSaveButton); [|invariants_kept].
    simpl handler. save_cases st post get; invariants_kept.
Qed.

(** X14: in every state the component comes to rest in, from its initial
    state and through any events with any answers of the store, no call is
    pending ([loading] is false), the draft is empty unless a drawing is
    going on, and a draft of three points or more has its save button on
    screen. *)
Theorem reachable_state_invariants (evs : list Event) :
  loading (steps initialState evs) = false
  /\ (isDrawing (steps initialState evs) = false ->
      currentPolygon (steps initialState evs) = [])
  /\ (3 <= length (currentPolygon (steps initialState evs)) ->
      saveVisible (steps initialState evs) = true).
Proof.
  assert (H : forall st,
            loading st = false
            /\ (isDrawing st = false -> currentPolygon st = [])
            /\ (3 <= length (currentPolygon st) -> showSaveButton st = true) ->
            loading (steps st evs) = false
            /\ (isDrawing (steps st evs) = false -> currentPolygon (steps st evs) = [])
            /\ (3 <= length (currentPolygon (steps st evs)) ->
                showSaveButton (steps st evs) = true)).
  { unfold steps. induction evs as [|ev evs IH]; intros st Hst; simpl;
      [exact Hst | apply IH, step_keeps_invariants, Hst]. }
  rewrite saveVisible_flag. apply H. simpl.
  repeat split. intros H3. inversion H3.
Qed.

(** ** A whole session *)

Lemma actionable_nameField (st : State) :
  actionable st NameField = showNameDialog st.
Proof.
  view_of actionable.
  destruct (isDrawing st), (showSaveButton st), (showNameDialog st),
    (loading st), (length (currentPolygon st) <? 3); reflexivity.
Qed.

Lemma step_drawNew (st : State) :
  isDrawing st = false ->
  step st ClickDrawNewPolygon
  = mkState (polygons st) [] true (newPolygonName st) (showSaveButton st)
            (showNameDialog st) (loading st).
Proof.
  intros Hd. unfold step.
  rewrite (dispatch_target st ClickDrawNewPolygon eq_refl).
  rewrite actionable_drawNew, Hd. reflexivity.
Qed.

(** The state when the user has started a drawing, clicked at least three
    times, opened the naming dialog and typed a name. *)
Lemma session_before_confirm (st : State) (canvas : Canvas)
    (es : list MouseEvent) (value : jsstring) :
  isDrawing st = false -> loading st = false -> 3 <= length es ->
  exists ps,
    steps st (ClickDrawNewPolygon
              :: List.map (ClickCanvas (Some canvas)) es
                 ++ [ClickSavePolygon; ChangeName value])
    = mkState ps (List.map (clickPoint canvas) es) true value true true false.
Proof.
  intros Hd Hl Hes.
  change (steps st (ClickDrawNewPolygon :: ?l))
    with (steps (step st ClickDrawNewPolygon) l).
  rewrite steps_app, step_drawNew by exact Hd.
  set (s0 := mkState _ _ _ _ _ _ _).
  destruct (steps_clicks canvas es s0 eq_refl) as (Hc & Hf & Hd1 & Hl1).
  set (s1 := steps s0 (List.map (ClickCanvas (Some canvas)) es)) in *.
  change (currentPolygon s0) with (@nil Point) in Hc, Hf.
  change ([] ++ List.map (clickPoint canvas) es)
    with (List.map (clickPoint canvas) es) in Hc.
  change (length (@nil Point) + length es) with (length es) in Hf.
  change (loading s0) with (loading st) in Hl1. rewrite Hl in Hl1.
  assert (Hflag : showSaveButton s1 = true).
  { rewrite Hf.
    destruct (Nat.eqb_spec (length es) 0) as [E|E]; [lia|].
    destruct (Nat.leb_spec 3 (length es)); [|lia].
    apply orb_true_r. }
  assert (Hlen : (length (currentPolygon s1) <? 3) = false).
  { rewrite Hc, length_map. apply Nat.ltb_ge. exact Hes. }
  unfold steps. simpl fold_left.
  assert (H2 : step s1 ClickSavePolygon
               = mkState (polygons s1) (currentPolygon s1) (isDrawing s1)
                         (newPolygonName s1) (showSaveButton s1) true (loading s1)).
  { assert (Hact : actionable s1 SavePolygonButton = true)
      by (rewrite actionable_save, Hflag, Hl1, Hd1, Hlen; reflexivity).
    unfold step. rewrite (dispatch_target s1 ClickSavePolygon eq_refl).
    rewrite Hact. reflexivity. }
  rewrite H2.
  set (s2 := mkState _ _ _ _ _ true _).
  assert (H3 : step s2 (ChangeName value)
               = mkState (polygons s1) (currentPolygon s1) (isDrawing s1)
                         value (showSaveButton s1) true (loading s1)).
  { unfold step. rewrite (dispatch_target s2 (ChangeName value) eq_refl).
    rewrite actionable_nameField. reflexivity. }
  rewrite H3, Hc, Hd1, Hflag, Hl1. exists (polygons s1). reflexivity.
Qed.

(** X15: start a drawing, click three times or more, open the naming
    dialog, type a name that is not blank and confirm: the store is asked to
    create the polygon with the trimmed name and exactly the clicked points,
    in click order and in canvas coordinates.  When the store accepts it and
    the list that follows succeeds, the component is idle again with an
    empty draft and name, the dialog closed, and the collection the store
    listed. *)
Theorem draw_and_save_submits_clicked_points (st : State) (canvas : Canvas)
    (es : list MouseEvent) (value : jsstring)
    (post : FetchOutcome Json) (get : FetchOutcome (list Polygon)) :
  isDrawing st = false -> loading st = false ->
  3 <= length es -> JsString.trim value <> [] ->
  let session :=
    ClickDrawNewPolygon
    :: List.map (ClickCanvas (Some canvas)) es
       ++ [ClickSavePolygon; ChangeName value] in
  requests (actions (dispatch (steps st session) (ClickDialogSave post get)))
  = PostPolygon (JsString.trim value) (List.map (clickPoint canvas) es)
    :: match post with
       | inr response => if ok response then [GetPolygons] else []
       | inl _ => []
       end
  /\ (forall res data,
        post = inr (mkResponse true (inr res)) ->
        strictEqualsString (optionalProperty res (js "error"))
                           duplicateNameError = false ->
        get = inr (mkResponse true (inr data)) ->
        step (steps st session) (ClickDialogSave post get)
        = mkState data [] false [] true false false).
Proof.
  intros Hd Hl Hes Hname session.
  destruct (@session_before_confirm st canvas es value Hd Hl Hes) as [ps Hs].
  fold session in Hs. rewrite Hs.
  set (s3 := mkState ps _ true value true true false).
  assert (Hg : createGuard s3 = true).
  { apply createGuard_spec. simpl. rewrite length_map. auto. }
  split.
  - rewrite dispatch_requests, actionable_dialogSave, Hg. reflexivity.
  - intros res data Hpost Hres Hget. subst post get.
    unfold step. rewrite (dispatch_target s3 (ClickDialogSave _ _) eq_refl).
    rewrite actionable_dialogSave. simpl handler. simpl andb. cbv iota.
    rewrite handleCreatePolygon_actions by exact Hg.
    rewrite createPolygon_outcome. simpl body. cbv iota. rewrite Hres.
    reflexivity.
Qed.

(** Three clicks at (18,18), (28,18), (28,28) on a canvas at (8,8), named
    " Zone1 ": the polygon sent is "Zone1" through (10,10), (20,10),
    (20,20). *)
Lemma draw_and_save_submits_clicked_points_witness :
  requests
    (actions
       (dispatch
          (steps initialState
             (ClickDrawNewPolygon
              :: List.map (ClickCanvas (Some Sample.canvas))
                   [Sample.click 18 18; Sample.click 28 18; Sample.click 28 28]
                 ++ [ClickSavePolygon; ChangeName (js " Zone1 ")]))
          (ClickDialogSave Sample.rejectedAsDuplicate (inl Sample.networkError))))
  = [PostPolygon (js "Zone1") [[10; 10]; [20; 10]; [20; 20]]%float].
Proof.
  exact (proj1
    (@draw_and_save_submits_clicked_points initialState Sample.canvas
       [Sample.click 18 18; Sample.click 28 18; Sample.click 28 28]
       (js " Zone1 ") Sample.rejectedAsDuplicate (inl Sample.networkError)
       eq_refl eq_refl (le_n 3)
       (fun H : JsString.trim (js " Zone1 ") = [] =>
          @eq_ind jsstring (JsString.trim (js " Zone1 "))
            (fun s => match s with [] => False | _ :: _ => True end)
            I [] H))).
Defined.

(** ** The earlier variant and the current one *)

(** X16: when the store's answer to the create call is read and is not the
    duplicate-name error, or the call fails in transport, the current save
    handler and the one of the earlier variant leave the component in the
    same state. *)
Theorem current_save_agrees_with_earlier_variant (st : State)
    (post : FetchOutcome Json) (get : FetchOutcome (list Polygon)) (res : Json) :
  loading st = false ->
  createGuard st = true ->
  outcome (createPolygon (JsString.trim (newPolygonName st))
                         (currentPolygon st) post get) = inr res ->
  strictEqualsString (optionalProperty res (js "error")) duplicateNameError
  = false ->
  run (actions (handleCreatePolygon st post get)) st
  = run (actions (Legacy.handleSavePolygon st post get)) st.
Proof.
  intros Hl Hg Hres Hdup.
  rewrite handleCreatePolygon_actions by exact Hg.
  rewrite Hres, Hdup.
  unfold Legacy.handleSavePolygon. rewrite Hg.
  clear Hres Hdup Hg.
  by_outcome post; by_outcome get; unfold run; simpl; rewrite ?Hl;
    reflexivity.
Qed.

(** The store accepts "Zone1". *)
Lemma current_save_agrees_with_earlier_variant_witness :
  run (actions (handleCreatePolygon Sample.naming
                  (inr (mkResponse true (inr JNull)))
                  (Sample.listOk [Sample.polygonA; Sample.polygonC])))
      Sample.naming
  = run (actions (Legacy.handleSavePolygon Sample.naming
                    (inr (mkResponse true (inr JNull)))
                    (Sample.listOk [Sample.polygonA; Sample.polygonC])))
        Sample.naming.
Proof.
  exact (@current_save_agrees_with_earlier_variant Sample.naming
           (inr (mkResponse true (inr JNull)))
           (Sample.listOk [Sample.polygonA; Sample.polygonC])
           JNull eq_refl eq_refl eq_refl eq_refl).
Defined.

(** The store answers the earlier variant's save with an HTML error page. *)
Lemma Legacy_handleSavePolygon_reset_witness :
  currentPolygon
    (run (actions (Legacy.handleSavePolygon Sample.naming
                     Sample.rejectedWithHtmlBody (inl Sample.networkError)))
         Sample.naming) = [].
Proof.
  exact (proj1 (proj2
    (@Legacy_handleSavePolygon_reset Sample.naming
       Sample.rejectedWithHtmlBody (inl Sample.networkError) eq_refl))).
Defined.

(** X18: the earlier variant sends the delete request without asking; it
    sends what the current variant sends once the user has confirmed, and
    from a state with no call in flight both end in the same state. *)
Theorem earlier_variant_deletes_without_asking (st : State) (id : Z)
    (del : FetchOutcome unit) (get : FetchOutcome (list Polygon)) :
  In (Fetch (DeletePolygon id)) (actions (Legacy.handleDeletePolygon id del get))
  /\ toasts (actions (Legacy.handleDeletePolygon id del get)) <> []
  /\ (forall a, In a (actions (Legacy.handleDeletePolygon id del get)) ->
      forall m, a <> WindowConfirm m)
  /\ requests (actions (Legacy.handleDeletePolygon id del get))
     = requests (actions (handleDeletePolygon id true del get))
  /\ (loading st = false ->
      run (actions (Legacy.handleDeletePolygon id del get)) st
      = run (actions (handleDeletePolygon id true del get)) st).
Proof.
  by_outcome del; by_outcome get;
    (split; [simpl; auto | ]);
    (split; [simpl; discriminate | ]);
    (split; [simpl; intros a Ha m E; subst a; intuition discriminate | ]);
    (split; [reflexivity | ]);
    intros Hl; destruct st; simpl in Hl; subst; reflexivity.
Qed.

(** X20: the current view is the earlier one with the [loading] gate added:
    whenever no call is in flight both show the same controls with the same
    disabled flags, and while one is in flight they differ at most in the
    disabled flag of the save button and of the two dialog buttons. *)
Theorem view_refines_earlier_view (st : State) :
  (loading st = false -> AppView st = Legacy.AppView st)
  /\ List.map control (AppView st) = List.map control (Legacy.AppView st)
  /\ (forall w, In w (AppView st) ->
      control w <> SavePolygonButton ->
      control w <> DialogCancelButton ->
      control w <> DialogSaveButton ->
      In w (Legacy.AppView st)).
Proof.
  unfold AppView, Legacy.AppView. split; [ | split ].
  - intros Hl. rewrite Hl. reflexivity.
  - rewrite !map_app.
    destruct (showSaveButton st), (showNameDialog st); reflexivity.
  - intros w Hw Hs Hc Hd.
    apply in_app_or in Hw. destruct Hw as [Hw|Hw];
      [apply in_or_app; left; exact Hw | apply in_or_app; right].
    apply in_app_or in Hw. destruct Hw as [Hw|Hw];
      [apply in_or_app; left; exact Hw | apply in_or_app; right].
    apply in_app_or in Hw. destruct Hw as [Hw|Hw];
      [apply in_or_app; left; exact Hw | apply in_or_app; right].
    apply in_app_or in Hw. destruct Hw as [Hw|Hw].
    + destruct (showSaveButton st); [|destruct Hw].
      destruct Hw as [Hw|[]]. subst w. destruct Hs. reflexivity.
    + apply in_or_app. right.
      destruct (showNameDialog st); [|destruct Hw].
      destruct Hw as [Hw|[Hw|[Hw|[Hw|[]]]]]; subst w.
      * left. reflexivity.
      * right. left. reflexivity.
      * destruct Hc. reflexivity.
      * destruct Hd. reflexivity.
Qed.

Lemma step_keeps_pairs (st : State) (ev : Event) :
  Forall (fun p => length p = 2) (currentPolygon st) ->
  Forall (fun p => length p = 2) (currentPolygon (step st ev)).
Proof.
  intros Hst. unfold step.
  destruct ev as [get| | |i confirmed del get|canvasRef e| | |value| |post get];
    unfold dispatch; simpl target; cbv beta iota.
  - simpl handler. by_outcome get; exact Hst.
  - destruct (actionable st DrawNewPolygonButton); [constructor | exact Hst].
  - destruct (actionable st CancelDrawingButton); [constructor | exact Hst].
  - destruct (actionable st (DeleteButton i)); [|exact Hst].
    destruct confirmed; [|exact Hst].
    simpl handler. by_outcome del; by_outcome get; exact Hst.
  - destruct (actionable st CanvasElement); [|exact Hst].
    simpl handler. unfold handleCanvasClick.
    destruct (isDrawing st); [|exact Hst].
    destruct canvasRef; [|exact Hst].
    destruct (1 <? length (currentPolygon st)); simpl;
      (apply Forall_app; split; [exact Hst | repeat constructor]).
  - destruct (actionable st SavePolygonButton); exact Hst.
  - destruct (actionable st NameDialog); exact Hst.
  - destruct (actionable st NameField); exact Hst.
  - destruct (actionable st DialogCancelButton); exact Hst.
  - destruct (actionable st DialogSaveButton); [|exact Hst].
    simpl handler. save_cases st post get; try exact Hst; constructor.
Qed.

(** X19: every point of every draft the component can hold is a pair of
    coordinates, so the points sent to the store are pairs and the renderer
    never reads a missing coordinate of a draft point. *)
Theorem draft_points_are_pairs (evs : list Event) :
  Forall (fun p => length p = 2) (currentPolygon (steps initialState evs))
  /\ (forall ev n p,
        In (Fetch (PostPolygon n p))
           (actions (dispatch (steps initialState evs) ev)) ->
        Forall (fun q => length q = 2) p).
Proof.
  assert (H : forall st,
            Forall (fun p => length p = 2) (currentPolygon st) ->
            Forall (fun p => length p = 2) (currentPolygon (steps st evs))).
  { unfold steps. induction evs as [|ev evs IH]; intros st Hst; simpl;
      [exact Hst | apply IH, step_keeps_pairs, Hst]. }
  assert (H0 : Forall (fun p => length p = 2)
                      (currentPolygon (steps initialState evs)))
    by (apply H; constructor).
  split; [exact H0|].
  intros ev n p Hin. apply requests_In in Hin.
  rewrite dispatch_requests in Hin.
  destruct ev as [get| | |i confirmed del get|canvasRef e| | |value| |post get];
    try (simpl in Hin; destruct Hin as [Hin|[]]; discriminate Hin);
    try (destruct Hin).
  - destruct (_ && confirmed); [|destruct Hin].
    destruct Hin as [Hin|Hin]; [discriminate Hin|].
    destruct del as [?|[[] ?]]; simpl in Hin;
      try destruct Hin as [Hin|[]]; try discriminate Hin; destruct Hin.
  - destruct (_ && createGuard _); [|destruct Hin].
    destruct Hin as [Hin|Hin].
    + injection Hin as _ Hp. rewrite <- Hp. exact H0.
    + destruct post as [?|[[] ?]]; simpl in Hin;
        try destruct Hin as [Hin|[]]; try discriminate Hin; destruct Hin.
Qed.

(* ================================================================= *)
(** * The renderer and the collection as sent *)

Lemma Untyped_lineTos_typed (l : list Point) :
  Untyped.lineTos (List.map Untyped.Coordinates l)
  = (List.map (fun p => LineTo (coord p 0) (coord p 1)) l, None).
Proof.
  induction l as [|p l IH]; simpl; [reflexivity|].
  rewrite IH. reflexivity.
Qed.

Lemma Untyped_coordinatesOf_typed (l : list Point) :
  Untyped.coordinatesOf (List.map Untyped.Coordinates l) = l.
Proof.
  unfold Untyped.coordinatesOf.
  induction l as [|p l IH]; simpl; [reflexivity|].
  rewrite IH. reflexivity.
Qed.

(** On a polygon of the declared type the callback never throws and makes
    the calls of [drawSavedPolygon]. *)
Lemma Untyped_drawSavedPolygon_typed (polygon : Polygon) (index : nat) :
  Untyped.drawSavedPolygon (asSent polygon) index
  = (drawSavedPolygon polygon index, None).
Proof.
  unfold Untyped.drawSavedPolygon, drawSavedPolygon, asSent.
  cbn [Untyped.points Untyped.name].
  destruct (points polygon) as [pts|]; cbn [option_map]; [|reflexivity].
  rewrite !Untyped_coordinatesOf_typed, !length_map.
  destruct (2 <? length pts) eqn:Hlen; [|reflexivity].
  destruct pts as [|p0 rest]; [discriminate Hlen|].
  cbn [List.map]. rewrite Untyped_lineTos_typed. reflexivity.
Qed.

Lemma Untyped_forEachFrom_typed (ps : list Polygon) :
  forall index,
  Untyped.forEachFrom index (List.map asSent ps)
  = (forEachFrom drawSavedPolygon index ps, None).
Proof.
  induction ps as [|p ps IH]; intros index; simpl; [reflexivity|].
  rewrite Untyped_drawSavedPolygon_typed, IH. reflexivity.
Qed.

Lemma Untyped_onload_typed (canvas : Canvas) (ps : list Polygon)
    (draft : list Point) :
  Untyped.onload canvas (List.map asSent ps) draft
  = (onload canvas ps draft, None).
Proof.
  unfold Untyped.onload, onload, forEach.
  rewrite Untyped_forEachFrom_typed. reflexivity.
Qed.

Lemma paintedSavedPolygon_renderable (polygon : Polygon) (pts : list Point)
    (index : nat) :
  points polygon = Some pts -> 3 <= length pts ->
  paintedSavedPolygon polygon index = paintedAt (index, name polygon, pts).
Proof.
  intros Hp Hlen. unfold paintedSavedPolygon, paintedAt. rewrite Hp.
  destruct (Nat.leb_spec 3 (length pts)); [reflexivity | lia].
Qed.

Lemma paintedSavedPolygon_skipped (polygon : Polygon) (index : nat) :
  (points polygon = None
   \/ exists pts, points polygon = Some pts /\ length pts < 3) ->
  paintedSavedPolygon polygon index = [].
Proof.
  unfold paintedSavedPolygon. intros [H | (pts & H & Hlen)]; rewrite H.
  - reflexivity.
  - destruct (Nat.leb_spec 3 (length pts)); [lia | reflexivity].
Qed.

Lemma In_forEachFrom {A B} (f : A -> nat -> list B) (ps : list A) :
  forall index j q x,
  nth_error ps j = Some q -> In x (f q (index + j)) ->
  In x (forEachFrom f index ps).
Proof.
  induction ps as [|p ps IH]; intros index j q x Hnth Hin.
  - destruct j; discriminate Hnth.
  - simpl. apply in_or_app. destruct j as [|j]; simpl in Hnth.
    + left. injection Hnth as ->. rewrite Nat.add_0_r in Hin. exact Hin.
    + right. apply (IH (S index) j q x Hnth).
      rewrite Nat.add_succ_comm. exact Hin.
Qed.

(** C9, as stated, fails: the renderer is not total over what the server
    may send.  With [null] as the first point of the second polygon the
    frame ends in a [TypeError] after [beginPath], and the third polygon,
    which has three points, is not drawn. *)
Lemma renderer_throws_on_null_point :
  ~ (forall canvas collection draft,
       snd (Untyped.onload canvas collection draft) = None
       /\ forall j q pts,
            nth_error collection j = Some q ->
            Untyped.points q = Some (List.map Untyped.Coordinates pts) ->
            3 <= length pts ->
            In (SetFillStyle (hsla (j * 60) 70 50 "0.3"))
               (fst (Untyped.onload canvas collection draft))).
Proof.
  intros H.
  destruct (H Sample.canvas collectionWithNullPoint []) as [Hthrow _].
  vm_compute in Hthrow. discriminate Hthrow.
Qed.

(** What that frame does: it clears, draws the image and the first polygon,
    begins the path of the second and stops. *)
Example frame_with_null_point :
  Untyped.onload Sample.canvas collectionWithNullPoint Sample.triangle
  = ([ClearRect 0 0 600 400; DrawImage 0 0 600 400]
     ++ drawSavedPolygon Sample.polygonA 0 ++ [BeginPath],
     Some Untyped.typeError)
  /\ ~ In (SetFillStyle (hsla 120 70 50 "0.3"))
          (fst (Untyped.onload Sample.canvas collectionWithNullPoint
                               Sample.triangle)).
Proof.
  split; [reflexivity|].
  vm_compute. intros H.
  repeat (destruct H as [H|H]; [discriminate H|]). exact H.
Qed.

(** C9, amended: on a collection of the declared type, [points] possibly
    missing, the frame is drawn to its end without an exception.  A polygon
    without points or with fewer than three adds no canvas call at all, and
    what the frame paints is the background, then the fill, the stroke and
    the label of every polygon with three points or more, each in the hue
    of its index in the whole collection, then the draft. *)
Theorem unrenderable_polygons_are_skipped (c : Context2D) (canvas : Canvas)
    (before after : list Polygon) (polygon : Polygon) (draft : list Point) :
  (points polygon = None
   \/ exists pts, points polygon = Some pts /\ length pts < 3) ->
  let collection := before ++ polygon :: after in
  let frame := Untyped.onload canvas (List.map asSent collection) draft in
  snd frame = None
  /\ Untyped.drawSavedPolygon (asSent polygon) (length before) = ([], None)
  /\ paint c (fst frame)
     = [PaintedClear 0 0 (width canvas) (height canvas);
        PaintedImage 0 0 (width canvas) (height canvas)]
       ++ forEachFrom paintedSavedPolygon 0 before
       ++ forEachFrom paintedSavedPolygon (S (length before)) after
       ++ paintedDraft draft
  /\ (forall j q pts,
        nth_error collection j = Some q ->
        points q = Some pts -> 3 <= length pts ->
        In (PaintedFill (closedPath pts) (hsla (j * 60) 70 50 "0.3"))
           (paint c (fst frame))
        /\ In (PaintedStroke (closedPath pts) (hsl (j * 60) 70 40) 2)
              (paint c (fst frame))
        /\ In (PaintedText (name q)
                 (sumCoord 0 pts / numberOfLength (length pts) - 20)%float
                 (sumCoord 1 pts / numberOfLength (length pts))%float
                 (js "#000") (js "14px Arial"))
              (paint c (fst frame))).
Proof.
  intros Hskip collection frame. subst frame.
  rewrite Untyped_onload_typed. simpl fst. simpl snd.
  assert (Hpaint : paint c (onload canvas collection draft)
                   = [PaintedClear 0 0 (width canvas) (height canvas);
                      PaintedImage 0 0 (width canvas) (height canvas)]
                     ++ forEach paintedSavedPolygon collection
                     ++ paintedDraft draft).
  { unfold onload, forEach. simpl app. simpl paint.
    rewrite paint_app, paint_forEachFrom, paint_drawCurrentPolygon.
    reflexivity. }
  split; [reflexivity|]. split; [|split].
  - rewrite Untyped_drawSavedPolygon_typed, drawSavedPolygon_skipped
      by exact Hskip.
    reflexivity.
  - rewrite Hpaint. subst collection.
    rewrite forEach_split, paintedSavedPolygon_skipped by exact Hskip.
    unfold forEach. rewrite <- app_assoc. reflexivity.
  - intros j q pts Hnth Hp Hlen. rewrite Hpaint.
    assert (Hin : forall x, In x (paintedAt (j, name q, pts)) ->
                  In x ([PaintedClear 0 0 (width canvas) (height canvas);
                         PaintedImage 0 0 (width canvas) (height canvas)]
                        ++ forEach paintedSavedPolygon collection
                        ++ paintedDraft draft)).
    { intros x Hx. apply in_or_app. right. apply in_or_app. left.
      unfold forEach.
      apply (@In_forEachFrom _ _ paintedSavedPolygon collection 0 j q x Hnth).
      rewrite (@paintedSavedPolygon_renderable q pts (0 + j) Hp Hlen).
      exact Hx. }
    repeat split; apply Hin; simpl; auto.
Qed.

(** A two-point polygon between renderable ones: the third polygon is
    filled in the hue of index 2. *)
Lemma unrenderable_polygons_are_skipped_witness :
  In (PaintedFill (closedPath Sample.triangle) (hsla (2 * 60) 70 50 "0.3"))
     (paint (mkContext [] [] [] 1 [])
        (fst (Untyped.onload Sample.canvas
                (List.map asSent
                   ([Sample.polygonA] ++ Sample.polygonB
                    :: [Sample.polygonC; Sample.polygonD]))
                []))).
Proof.
  exact (proj1
    (proj2 (proj2 (proj2
      (@unrenderable_polygons_are_skipped (mkContext [] [] [] 1 [])
         Sample.canvas [Sample.polygonA] [Sample.polygonC; Sample.polygonD]
         Sample.polygonB []
         (or_intror (ex_intro _ Sample.segment (conj eq_refl (le_n 3)))))))
      2 Sample.polygonC Sample.triangle eq_refl eq_refl (le_n 3))).
Defined.

Lemma forEachFrom_paintedAt (ps : list Polygon) :
  forall index,
  forEachFrom paintedSavedPolygon index ps
  = flat_map paintedAt
      (flat_map (fun ip =>
                   match points (snd ip) with
                   | Some pts =>
                       if 3 <=? length pts
                       then [(fst ip, name (snd ip), pts)] else []
                   | None => []
                   end)
                (combine (seq index (length ps)) ps)).
Proof.
  induction ps as [|p ps IH]; intros index; [reflexivity|].
  cbn [forEachFrom length seq combine flat_map fst snd].
  rewrite IH, flat_map_app. f_equal.
  unfold paintedSavedPolygon.
  destruct (points p) as [pts|]; [|reflexivity].
  generalize (3 <=? length pts). intros [|]; [|reflexivity].
  cbn [flat_map]. rewrite app_nil_r. reflexivity.
Qed.

(** X3: whatever the context holds, the saved-polygon pass paints, for each
    polygon with three points or more and in collection order, one fill and
    one stroke of the closed outline through its points in the hue of its
    index in the whole collection and its name in black, and nothing for
    the other polygons. *)
Theorem saved_pass_paints_renderable_only (c : Context2D) (ps : list Polygon) :
  paint c (forEach drawSavedPolygon ps) = flat_map paintedAt (renderableAt ps).
Proof.
  unfold forEach, renderableAt.
  rewrite paint_forEachFrom. apply forEachFrom_paintedAt.
Qed.

(** * Deleting in the earlier variant *)

(** C7: the delete call must wait for a yes.  In the earlier variant a click
    on the delete button of polygon 1 sends the request at once: there is no
    confirmation among the effects, the store deletes and the list that
    follows empties the collection, where the current handler, answered no,
    sends nothing. *)
Theorem Legacy_handleDeletePolygon_sends_unconfirmed :
  let r := Legacy.handleDeletePolygon 1 Sample.deleteOk (Sample.listOk []) in
  requests (actions r) = [DeletePolygon 1; GetPolygons]
  /\ existsb (fun a => match a with WindowConfirm _ => true | _ => false end)
             (actions r) = false
  /\ polygons Sample.naming = [Sample.polygonA]
  /\ polygons (run (actions r) Sample.naming) = []
  /\ requests (actions (handleDeletePolygon 1 false Sample.deleteOk
                                            (Sample.listOk []))) = [].
Proof. vm_compute. repeat split. Qed.
